(** * SmartMarketMaker

    A shallow embedding of [strategy2.py], the market-making script built on
    hummingbot's [ScriptStrategyBase], and the properties of its quoting
    pipeline: dynamic spread, inventory-based sizing, RSI trend filter,
    order placement and the refresh timer of [on_tick].

    Numbers are modelled as the script has them:
    - Python [float]s are binary64 values, Rocq's primitive [float];
    - [decimal.Decimal] values are [NaN], an infinity or a rational.  Each
      arithmetic result is rounded as the default context does, to 28
      significant digits, half to even.  The context's exponent limits are
      not modelled: no [Overflow], no loss of digits near [Etiny];
    - an exception that the script does not catch ends the method: methods
      that can raise return a [Py.result].

    What the script receives from outside is taken as follows: the
    connector reports finite decimals for the price and the balances, and
    every row of the candle frame carries both indicator columns (pandas_ta
    adds the RSI_14 column once the frame holds 14 candles), a reading that
    is not ready being NaN. *)

From Stdlib Require Import ZArith QArith Floats Bool List String Ascii Lia Lqa.
Import ListNotations.
Set Warnings "-inexact-float".

(** ** Python builtins *)

Module Py.

Inductive exn : Type :=
| InvalidOperation   (* decimal.InvalidOperation *)
| IndexError
| ValueError.

Inductive result (A : Type) : Type :=
| Ok (a : A)
| Raise (e : exn).
Arguments Ok {A} a.
Arguments Raise {A} e.

Definition bind {A B : Type} (c : result A) (k : A -> result B) : result B :=
  match c with
  | Ok a => k a
  | Raise e => Raise e
  end.

(** [max(a, b)] keeps [a] unless [b > a]; [min(a, b)] keeps [a] unless
    [b < a].  A NaN first argument is therefore kept. *)
Definition max (a b : float) : float := if (a <? b)%float then b else a.
Definition min (a b : float) : float := if (b <? a)%float then b else a.

(** [s.split(sep)] for a one-character separator. *)
Fixpoint split_from (sep : ascii) (cur s : string) : list string :=
  match s with
  | EmptyString => [cur]
  | String c s' =>
      if Ascii.eqb c sep then cur :: split_from sep EmptyString s'
      else split_from sep (cur ++ String c EmptyString) s'
  end.

Definition split (sep : ascii) (s : string) : list string :=
  split_from sep EmptyString s.

(** [a, b = xs] *)
Definition unpack2 {A : Type} (xs : list A) : result (A * A) :=
  match xs with
  | [a; b] => Ok (a, b)
  | _ => Raise ValueError
  end.

(** [xs[-1]] / [df.iloc[-1]] *)
Definition last_item {A : Type} (xs : list A) : result A :=
  match rev xs with
  | x :: _ => Ok x
  | [] => Raise IndexError
  end.

End Py.

Notation "x <- c ;; k" := (Py.bind c (fun x => k))
  (at level 61, c at next level, right associativity).
Notation "' pat <- c ;; k" := (Py.bind c (fun x => match x with pat => k end))
  (at level 61, pat pattern, c at next level, right associativity).

(** ** [decimal.Decimal] *)

Module decimal.

Inductive Decimal : Type :=
| NaN
| Infinity (negative : bool)
| Finite (q : Q).

Definition Qlt_bool (x y : Q) : bool := negb (Qle_bool y x).

(** The rational [(-1)^s * m * 2^e] denoted by a finite binary64 value. *)
Definition SF2Q (s : bool) (m : positive) (e : Z) : Q :=
  let mag :=
    match e with
    | Z0 => inject_Z (Zpos m)
    | Zpos k => inject_Z (Zpos m * 2 ^ Zpos k)
    | Zneg k => Zpos m # (2 ^ k)
    end in
  if s then Qopp mag else mag.

(** [Decimal(f)] for a float [f]: the conversion is exact. *)
Definition from_float (f : float) : Decimal :=
  match Prim2SF f with
  | S754_nan => NaN
  | S754_infinity s => Infinity s
  | S754_zero _ => Finite 0
  | S754_finite s m e => Finite (SF2Q s m e)
  end.

(** *** Context rounding

    [digits10 n] is the number of decimal digits of [n > 0];
    [adjusted n d] is the adjusted exponent of [n / d], the integer [e] with
    [10^e <= n / d < 10^(e + 1)]. *)
Fixpoint digits10_fuel (fuel : nat) (n : Z) : Z :=
  match fuel with
  | O => 1
  | S fuel' => if (n <? 10)%Z then 1 else (1 + digits10_fuel fuel' (n / 10))%Z
  end.

Definition digits10 (n : Z) : Z :=
  digits10_fuel (S (Z.to_nat (Z.log2 n))) n.

Definition adjusted (n d : Z) : Z :=
  let e := (digits10 n - digits10 d)%Z in
  if (d * 10 ^ Z.max 0 e <=? n * 10 ^ Z.max 0 (- e))%Z then e else (e - 1)%Z.

(** The integer nearest to [n / d], ties to the even one ([ROUND_HALF_EVEN]). *)
Definition round_half_even (n d : Z) : Z :=
  let q := (n / d)%Z in
  match (2 * (n mod d) ?= d)%Z with
  | Lt => q
  | Gt => (q + 1)%Z
  | Eq => if Z.even q then q else (q + 1)%Z
  end.

(** [getcontext().prec] *)
Definition context_prec : Z := 28.

(** [n / d > 0] rounded to [context_prec] significant digits: the quotient
    is scaled by the power of ten that leaves 28 digits before the point,
    rounded to an integer, and scaled back. *)
Definition round_pos (n d : Z) : Q :=
  let k := (adjusted n d - (context_prec - 1))%Z in
  let up := (10 ^ Z.max 0 (- k))%Z in
  let down := (10 ^ Z.max 0 k)%Z in
  (round_half_even (n * up) (d * down) * down) # Z.to_pos up.

(** The value of [x] after the context's rounding.  A value that needs no
    rounding is returned as it is. *)
Definition round (x : Q) : Q :=
  let y := match Qnum x with
           | Z0 => 0
           | Zpos n => round_pos (Zpos n) (Zpos (Qden x))
           | Zneg n => - round_pos (Zpos n) (Zpos (Qden x))
           end in
  if Qeq_bool y x then x else y.

(** Magnitudes between [10^-1000] and [10^1000]: far inside the exponent
    range of the context ([Emin] = -999999, [Emax] = 999999), so that
    products and quotients of a few such values meet neither limit. *)
Definition ordinary (x : Q) : Prop :=
  (1 # 10 ^ 1000 <= x)%Q /\ (x <= inject_Z (10 ^ 1000))%Q.

(** [a * b].  A quiet NaN propagates; [0 * Infinity] signals
    [InvalidOperation], which the default context traps; a finite product
    is rounded by the context. *)
Definition mul (a b : Decimal) : Py.result Decimal :=
  match a, b with
  | NaN, _ | _, NaN => Py.Ok NaN
  | Infinity s1, Infinity s2 => Py.Ok (Infinity (xorb s1 s2))
  | Infinity s, Finite q | Finite q, Infinity s =>
      if Qeq_bool q 0 then Py.Raise Py.InvalidOperation
      else Py.Ok (Infinity (xorb s (Qlt_bool q 0)))
  | Finite x, Finite y => Py.Ok (Finite (round (x * y)))
  end.

(** [a < b].  An ordering comparison that involves NaN signals
    [InvalidOperation]. *)
Definition lt (a b : Decimal) : Py.result bool :=
  match a, b with
  | NaN, _ | _, NaN => Py.Raise Py.InvalidOperation
  | Infinity s1, Infinity s2 => Py.Ok (s1 && negb s2)
  | Infinity s, Finite _ => Py.Ok s
  | Finite _, Infinity s => Py.Ok (negb s)
  | Finite x, Finite y => Py.Ok (Qlt_bool x y)
  end.

(** A number that is either a [Decimal] or a [float], as the value of a
    conditional expression whose branches have different types. *)
Inductive number : Type :=
| Dec (d : Decimal)
| Flt (f : float).

(** [x > f] and [x < f] for a float [f].  Against a [Decimal] the float is
    converted exactly before the comparison. *)
Definition gt_float (x : number) (f : float) : Py.result bool :=
  match x with
  | Dec d => lt (from_float f) d
  | Flt g => Py.Ok (f <? g)%float
  end.

Definition lt_float (x : number) (f : float) : Py.result bool :=
  match x with
  | Dec d => lt d (from_float f)
  | Flt g => Py.Ok (g <? f)%float
  end.

End decimal.

(** ** hummingbot data types used by the script *)

Module hummingbot.

(** [hummingbot.core.data_type.common] *)
Inductive TradeType : Type := BUY | SELL | RANGE.
Inductive OrderType : Type := MARKET | LIMIT | LIMIT_MAKER | AMM_SWAP.
Inductive PriceType : Type :=
| BestBid | BestAsk | MidPrice | LastTrade | LastOwnTrade
| InventoryCost | Custom.

Module OrderCandidate.
Record t : Type := Build {
  trading_pair : string;
  is_maker : bool;
  order_type : OrderType;
  order_side : TradeType;
  amount : decimal.Decimal;
  price : decimal.Decimal
}.
End OrderCandidate.

(** An active order as [get_active_orders] enumerates it. *)
Module LimitOrder.
Record t : Type := Build {
  client_order_id : string;
  trading_pair : string
}.
End LimitOrder.

(** The part of a connector the script reads.  Prices and balances are
    finite decimals.  [adjust_candidates] is the connector's
    [budget_checker.adjust_candidates]. *)
Module ConnectorBase.
Record t : Type := Build {
  get_price_by_type : string -> PriceType -> Q;
  get_balance : string -> Q;
  adjust_candidates :
    list OrderCandidate.t -> bool -> list OrderCandidate.t
}.
End ConnectorBase.

(** Calls a strategy makes on [ScriptStrategyBase]: [self.cancel],
    [self.buy] and [self.sell], with their arguments in source order. *)
Inductive Call : Type :=
| cancel (connector_name trading_pair order_id : string)
| buy (connector_name trading_pair : string) (amount : decimal.Decimal)
      (order_type : OrderType) (price : decimal.Decimal)
| sell (connector_name trading_pair : string) (amount : decimal.Decimal)
       (order_type : OrderType) (price : decimal.Decimal).

End hummingbot.

(** ** The strategy *)

Module SmartMarketMaker.
Import hummingbot.

Definition base_spread : float := 0.001.
Definition min_spread : float := 0.0005.
Definition max_spread : float := 0.005.
(** The integer 15; it is only ever added to a float timestamp. *)
Definition order_refresh_time : float := 15.
Definition base_order_amount : float := 0.01.
Definition trading_pair : string := "ETH-USDT".
Definition exchange : string := "binance_paper_trade".
Definition price_source : PriceType := MidPrice.

(** The instance state the script owns.  [create_timestamp] starts at 0. *)
Record t : Type := Build { create_timestamp : float }.

Definition init : t := {| create_timestamp := 0 |}.

(** One row of the frame [get_candles_with_indicators] returns: the close
    and the two indicator columns.  pandas reports an indicator whose
    lookback is not yet filled as NaN. *)
Record Row : Type := {
  close : float;
  RSI_14 : float;
  volatility : float
}.

(** What the base class and the collaborators expose during one tick.
    [get_candles_with_indicators] is the frame with its indicator columns,
    oldest row first; the indicators are computed by pandas. *)
Record Env : Type := {
  connectors : string -> ConnectorBase.t;
  current_timestamp : float;
  ready_to_trade : bool;
  get_active_orders : string -> list LimitOrder.t;
  get_candles_with_indicators : list Row
}.

Definition dynamic_spread (volatility : float) : float :=
  Py.min (Py.max (base_spread + volatility * 0.5)%float min_spread) max_spread.

(** The inventory ratio of [create_proposal]: a [Decimal] quotient when the
    total value is positive, the float 0.5 otherwise.  The product, the sum
    and the quotient are [Decimal] operations, each rounded by the context. *)
Definition inventory_ratio (base_balance quote_balance ref_price : Q)
  : decimal.number :=
  let total_value :=
    decimal.round (quote_balance + decimal.round (base_balance * ref_price)) in
  if decimal.Qlt_bool 0 total_value
  then decimal.Dec (decimal.Finite
         (decimal.round (decimal.round (base_balance * ref_price) / total_value)))
  else decimal.Flt 0.5.

(** [inventory_ratio > 0.8 or inventory_ratio < 0.2] *)
Definition too_skewed (ratio : decimal.number) : Py.result bool :=
  high <- decimal.gt_float ratio 0.8 ;;
  if high : bool then Py.Ok true else decimal.lt_float ratio 0.2.

Definition order_amount (ratio : decimal.number) : Py.result decimal.Decimal :=
  skewed <- too_skewed ratio ;;
  if skewed : bool
  then decimal.mul (decimal.from_float base_order_amount) (decimal.from_float 0.5)
  else Py.Ok (decimal.from_float base_order_amount).

(** [rsi > 75 or rsi < 25] *)
Definition trend_too_strong (rsi : float) : bool :=
  (75 <? rsi)%float || (rsi <? 25)%float.

(** [create_proposal].  The log line of the suppressed branch is not
    modelled. *)
Definition create_proposal (self : Env) : Py.result (list OrderCandidate.t) :=
  let ref_price :=
    ConnectorBase.get_price_by_type (connectors self exchange)
      trading_pair price_source in
  '(base_asset, quote_asset) <- Py.unpack2 (Py.split "-" trading_pair) ;;
  let balances := ConnectorBase.get_balance (connectors self exchange) base_asset in
  let candles_df := get_candles_with_indicators self in
  latest <- Py.last_item candles_df ;;
  let rsi := RSI_14 latest in
  let volatility := volatility latest in
  let spread := dynamic_spread volatility in
  buy_price <- decimal.mul (decimal.Finite ref_price)
                 (decimal.from_float (1 - spread)%float) ;;
  sell_price <- decimal.mul (decimal.Finite ref_price)
                  (decimal.from_float (1 + spread)%float) ;;
  let quote_balance :=
    ConnectorBase.get_balance (connectors self exchange) quote_asset in
  let base_balance :=
    ConnectorBase.get_balance (connectors self exchange) base_asset in
  order_amount <- order_amount (inventory_ratio base_balance quote_balance ref_price) ;;
  if trend_too_strong rsi then Py.Ok []
  else
    let buy_order :=
      OrderCandidate.Build trading_pair true LIMIT BUY order_amount buy_price in
    let sell_order :=
      OrderCandidate.Build trading_pair true LIMIT SELL order_amount sell_price in
    Py.Ok [buy_order; sell_order].

Definition adjust_proposal_to_budget (self : Env)
    (proposal : list OrderCandidate.t) : list OrderCandidate.t :=
  ConnectorBase.adjust_candidates (connectors self exchange) proposal true.

Definition place_order (connector_name : string) (order : OrderCandidate.t)
  : list Call :=
  match OrderCandidate.order_side order with
  | SELL =>
      [sell connector_name (OrderCandidate.trading_pair order)
         (OrderCandidate.amount order) (OrderCandidate.order_type order)
         (OrderCandidate.price order)]
  | BUY =>
      [buy connector_name (OrderCandidate.trading_pair order)
         (OrderCandidate.amount order) (OrderCandidate.order_type order)
         (OrderCandidate.price order)]
  | RANGE => []
  end.

Definition place_orders (proposal : list OrderCandidate.t) : list Call :=
  flat_map (place_order exchange) proposal.

Definition cancel_all_orders (self : Env) : list Call :=
  map (fun order =>
         cancel exchange (LimitOrder.trading_pair order)
           (LimitOrder.client_order_id order))
      (get_active_orders self exchange).

(** The result of one [on_tick]: the calls made, in order, the instance
    state afterwards, and the exception that ended the tick, if any. *)
Record Outcome : Type := {
  calls : list Call;
  after : t;
  raised : option Py.exn
}.

Definition on_tick (self : Env) (st : t) : Outcome :=
  if (create_timestamp st <=? current_timestamp self)%float && ready_to_trade self
  then
    let cancels := cancel_all_orders self in
    match create_proposal self with
    | Py.Raise e => {| calls := cancels; after := st; raised := Some e |}
    | Py.Ok proposal =>
        let proposal_adjusted := adjust_proposal_to_budget self proposal in
        {| calls := cancels ++ place_orders proposal_adjusted;
           after := {| create_timestamp :=
                         (current_timestamp self + order_refresh_time)%float |};
           raised := None |}
    end
  else {| calls := []; after := st; raised := None |}.

End SmartMarketMaker.

(** ** The specification's functions, in its own words

    Used where a claim compares the script with the specified function. *)

Module Spec.

(** [clamp(x, lo, hi)] *)
Definition clamp (x lo hi : float) : float :=
  if (x <? lo)%float then lo else if (hi <? x)%float then hi else x.

Definition computeSpread (volatility : float) : float :=
  clamp (0.001 + volatility * 0.5)%float 0.0005 0.005.

Definition shouldSuppress (trendSignal : float) : bool :=
  (75 <? trendSignal)%float || (trendSignal <? 25)%float.

(** The inventory sizer on exact decimal numbers. *)
Definition baseOrderAmount : Q := 1 # 100.

Definition inventoryRatio (baseBalance quoteBalance referencePrice : Q) : Q :=
  let totalValue := (quoteBalance + baseBalance * referencePrice)%Q in
  if decimal.Qlt_bool 0 totalValue
  then ((baseBalance * referencePrice) / totalValue)%Q
  else (5 # 10)%Q.

Definition computeAmount (baseBalance quoteBalance referencePrice : Q) : Q :=
  let r := inventoryRatio baseBalance quoteBalance referencePrice in
  if decimal.Qlt_bool (8 # 10) r || decimal.Qlt_bool r (2 # 10)
  then (baseOrderAmount * (5 # 10))%Q
  else baseOrderAmount.

End Spec.

(** ** Concrete ticks used as examples *)

Module Examples.
Import hummingbot SmartMarketMaker.

Definition balances (base quote : Q) (asset : string) : Q :=
  if String.eqb asset "ETH" then base
  else if String.eqb asset "USDT" then quote
  else 0.

(** A connector whose budget checker keeps every candidate. *)
Definition funded (price base quote : Q) : ConnectorBase.t :=
  {| ConnectorBase.get_price_by_type := fun _ _ => price;
     ConnectorBase.get_balance := balances base quote;
     ConnectorBase.adjust_candidates := fun proposal _ => proposal |}.

(** A connector whose budget checker rejects every proposal. *)
Definition unfunded (price base quote : Q) : ConnectorBase.t :=
  {| ConnectorBase.get_price_by_type := fun _ _ => price;
     ConnectorBase.get_balance := balances base quote;
     ConnectorBase.adjust_candidates := fun _ _ => [] |}.

Definition row (rsi vol : float) : Row :=
  {| close := 2000; RSI_14 := rsi; volatility := vol |}.

Definition eth_order : LimitOrder.t :=
  {| LimitOrder.client_order_id := "buy-ETH-USDT-1";
     LimitOrder.trading_pair := "ETH-USDT" |}.

Definition env (conn : ConnectorBase.t) (now : float) (ready : bool)
    (orders : list LimitOrder.t) (frame : list Row) : Env :=
  {| connectors := fun _ => conn;
     current_timestamp := now;
     ready_to_trade := ready;
     get_active_orders := fun _ => orders;
     get_candles_with_indicators := frame |}.

(** Mid price 2000, 1 ETH and 2000 USDT, RSI 50, volatility 0.002. *)
Definition quoting : Env :=
  env (funded 2000 1 2000) 100 true [eth_order] [row 50 0.002].

(** Fourteen candles: the rolling deviation over 10 closes is defined from
    the tenth row on, the 14-period RSI on no row yet. *)
Definition warming_up : Env :=
  env (funded 2000 1 2000) 100 true []
    (repeat (row nan nan) 9 ++ repeat (row nan 0.002) 5).

(** RSI 80. *)
Definition trending : Env :=
  env (funded 2000 1 2000) 100 true [eth_order] [row 80 0.002].

(** The budget checker returns an empty proposal. *)
Definition broke : Env :=
  env (unfunded 2000 1 2000) 100 true [eth_order] [row 50 0.002].

(** 1 ETH at price 20 and 80 USDT: the inventory ratio is exactly 0.2. *)
Definition one_fifth : Env :=
  env (funded 20 1 80) 100 true [] [row 50 0.002].

End Examples.

(** ** A predicate on [spec_float] used in the proofs

    [SF_signed s x]: [x] is not NaN and carries the sign [s]. *)

Definition SF_signed (s : bool) (x : spec_float) : Prop :=
  match x with
  | S754_zero s' | S754_infinity s' | S754_finite s' _ _ => s' = s
  | S754_nan => False
  end.

(** * Properties *)

(** ** Binary64 rounding: auxiliary facts on [SpecFloat] *)

Section Binary64.
Local Open Scope Z_scope.

Lemma digits2_pos_bounds (p : positive) :
  2 ^ (Zpos (digits2_pos p) - 1) <= Zpos p < 2 ^ Zpos (digits2_pos p).
Proof.
  induction p as [p IH | p IH |]; cbn [digits2_pos].
  - rewrite Pos2Z.inj_succ, Z.pow_succ_r by lia.
    replace (Z.succ (Zpos (digits2_pos p)) - 1) with (Z.succ (Zpos (digits2_pos p) - 1)) by lia.
    rewrite Z.pow_succ_r by lia. lia.
  - rewrite Pos2Z.inj_succ, Z.pow_succ_r by lia.
    replace (Z.succ (Zpos (digits2_pos p)) - 1) with (Z.succ (Zpos (digits2_pos p) - 1)) by lia.
    rewrite Z.pow_succ_r by lia. lia.
  - cbn. lia.
Qed.

Lemma digits2_pos_unique (p : positive) (d : Z) :
  2 ^ (d - 1) <= Zpos p < 2 ^ d -> Zpos (digits2_pos p) = d.
Proof.
  intros [Hlo Hhi]. pose proof (digits2_pos_bounds p) as [Blo Bhi].
  set (k := Zpos (digits2_pos p)) in *.
  assert (0 < d).
  { destruct (Z.ltb_spec 0 d); trivial.
    destruct (Z.eq_dec d 0) as [-> | ]; [cbn in Hhi; lia|].
    rewrite Z.pow_neg_r in Hhi by lia. lia. }
  destruct (Z.lt_trichotomy k d) as [Hlt | [Heq | Hgt]]; trivial.
  - assert (2 ^ k <= 2 ^ (d - 1)) by (apply Z.pow_le_mono_r; lia). lia.
  - assert (2 ^ d <= 2 ^ (k - 1)) by (apply Z.pow_le_mono_r; lia). lia.
Qed.

Lemma shr_1_m (mrs : shr_record) :
  0 <= shr_m mrs -> shr_m (shr_1 mrs) = shr_m mrs / 2.
Proof.
  destruct mrs as [m r s]; cbn [shr_m]; intros Hm.
  rewrite <- Z.div2_div.
  destruct m as [|[p|p|]|]; try reflexivity; lia.
Qed.

Lemma iter_shr_1_m (n : positive) : forall mrs,
  0 <= shr_m mrs -> shr_m (iter_pos shr_1 n mrs) = shr_m mrs / 2 ^ Zpos n.
Proof.
  induction n as [n IH | n IH |]; intros mrs Hm; cbn [iter_pos].
  - assert (H1 : 0 <= shr_m (shr_1 mrs)) by (rewrite shr_1_m by trivial; apply Z.div_pos; lia).
    assert (H2 : 0 <= shr_m (iter_pos shr_1 n (shr_1 mrs))).
    { rewrite IH by trivial. apply Z.div_pos; [trivial | apply Z.pow_pos_nonneg; lia]. }
    rewrite IH, IH, shr_1_m by trivial.
    assert (0 < 2 ^ Zpos n) by (apply Z.pow_pos_nonneg; lia).
    rewrite !Z.div_div by lia. f_equal.
    replace (Zpos n~1) with (1 + Zpos n + Zpos n) by lia.
    rewrite !Z.pow_add_r by lia. change (2 ^ 1) with 2. ring.
  - assert (H2 : 0 <= shr_m (iter_pos shr_1 n mrs)).
    { rewrite IH by trivial. apply Z.div_pos; [trivial | apply Z.pow_pos_nonneg; lia]. }
    rewrite IH, IH by trivial.
    assert (0 < 2 ^ Zpos n) by (apply Z.pow_pos_nonneg; lia).
    rewrite !Z.div_div by lia. f_equal.
    replace (Zpos n~0) with (Zpos n + Zpos n) by lia.
    rewrite !Z.pow_add_r by lia. ring.
  - rewrite shr_1_m by trivial. reflexivity.
Qed.

Lemma shr_record_of_loc_m (m : Z) (l : location) :
  shr_m (shr_record_of_loc m l) = m.
Proof. destruct l as [|[]]; reflexivity. Qed.

Lemma round_nearest_even_bounds (m : Z) (l : location) :
  m <= round_nearest_even m l <= m + 1.
Proof.
  destruct l as [|[]]; cbn [round_nearest_even]; try lia.
  destruct (Z.even m); lia.
Qed.

Lemma shr_m_nonneg (mrs : shr_record) (e n : Z) :
  0 <= shr_m mrs -> 0 <= shr_m (fst (shr mrs e n)).
Proof.
  intros Hm. destruct n as [|n|n]; cbn [shr fst]; trivial.
  rewrite iter_shr_1_m by trivial.
  apply Z.div_pos; [trivial | apply Z.pow_pos_nonneg; lia].
Qed.

Lemma shr_fexp_m_nonneg (m e : Z) (l : location) :
  0 <= m -> 0 <= shr_m (fst (shr_fexp prec emax m e l)).
Proof.
  intros Hm. unfold shr_fexp. apply shr_m_nonneg.
  now rewrite shr_record_of_loc_m.
Qed.

Lemma binary_round_aux_signed (s : bool) (m e : Z) (l : location) :
  0 <= m -> SF_signed s (binary_round_aux prec emax s m e l).
Proof.
  intros Hm. unfold binary_round_aux.
  pose proof (shr_fexp_m_nonneg m e l Hm) as H1.
  destruct (shr_fexp prec emax m e l) as [mrs' e'] eqn:E1. cbn [fst] in H1.
  pose proof (round_nearest_even_bounds (shr_m mrs') (loc_of_shr_record mrs')) as Hr.
  pose proof (shr_fexp_m_nonneg (round_nearest_even (shr_m mrs') (loc_of_shr_record mrs')) e' loc_Exact) as H2.
  destruct (shr_fexp prec emax _ e' loc_Exact) as [mrs'' e''] eqn:E2. cbn [fst] in H2.
  destruct (shr_m mrs'') as [|p|p] eqn:E3; cbn [SF_signed]; trivial.
  - destruct (e'' <=? emax - prec); reflexivity.
  - lia.
Qed.

(** Rounding a mantissa of [53 + n] bits ([n > 0]) in the normal range,
    away from the top of its binade: the result keeps the sign, has exponent
    [e + n] and a mantissa within one unit of the truncated one. *)
Lemma binary_round_aux_shift (s : bool) (M n : positive) (e : Z) :
  Zpos (digits2_pos M) = 53 + Zpos n ->
  -1074 <= e + Zpos n <= 971 ->
  Zpos M / 2 ^ Zpos n + 1 < 2 ^ 53 ->
  exists p : positive,
    binary_round_aux prec emax s (Zpos M) e loc_Exact = S754_finite s p (e + Zpos n)
    /\ Zpos M / 2 ^ Zpos n <= Zpos p <= Zpos M / 2 ^ Zpos n + 1
    /\ 2 ^ 52 <= Zpos p < 2 ^ 53.
Proof.
  intros Hd He Hq.
  pose proof (digits2_pos_bounds M) as [Blo _]. rewrite Hd in Blo.
  assert (Hpow : 0 < 2 ^ Zpos n) by (apply Z.pow_pos_nonneg; lia).
  assert (Hq52 : 2 ^ 52 <= Zpos M / 2 ^ Zpos n).
  { apply Z.div_le_lower_bound; trivial.
    replace (53 + Zpos n - 1) with (Zpos n + 52) in Blo by lia.
    rewrite Z.pow_add_r in Blo by lia. lia. }
  unfold binary_round_aux, shr_fexp at 1.
  cbn [Zdigits2]. rewrite Hd.
  assert (Hf : fexp prec emax (53 + Zpos n + e) - e = Zpos n).
  { unfold fexp, SpecFloat.emin, prec, emax. lia. }
  rewrite Hf. cbn [shr shr_record_of_loc].
  set (mrs := iter_pos shr_1 n _).
  assert (Hm : shr_m mrs = Zpos M / 2 ^ Zpos n).
  { unfold mrs. rewrite iter_shr_1_m; cbn [shr_m]; [reflexivity | lia]. }
  pose proof (round_nearest_even_bounds (shr_m mrs) (loc_of_shr_record mrs)) as Hr.
  destruct (round_nearest_even (shr_m mrs) (loc_of_shr_record mrs)) as [|p|p];
    rewrite Hm in Hr; try lia.
  assert (Hdp : Zpos (digits2_pos p) = 53).
  { apply digits2_pos_unique. change (53 - 1) with 52. lia. }
  unfold shr_fexp. cbn [Zdigits2]. rewrite Hdp.
  assert (Hf2 : fexp prec emax (53 + (e + Zpos n)) - (e + Zpos n) = 0).
  { unfold fexp, SpecFloat.emin, prec, emax. lia. }
  rewrite Hf2. cbn [shr shr_record_of_loc shr_m].
  assert (Hle : (e + Zpos n <=? emax - prec) = true).
  { apply Z.leb_le. unfold emax, prec. lia. }
  rewrite Hle. exists p. repeat split; lia.
Qed.

(** ** Order on [spec_float] *)

Lemma SFcompare_antisym (x y : spec_float) (c : comparison) :
  SFcompare x y = Some c -> SFcompare y x = Some (CompOpp c).
Proof.
  destruct x as [sx|sx| |sx mx ex], y as [sy|sy| |sy my ey]; cbn [SFcompare];
    try discriminate;
    try (destruct sx; try destruct sy; intros [= <-]; reflexivity);
    try (destruct sy; intros [= <-]; reflexivity).
  assert (Hm : Pos.compare_cont Eq my mx = CompOpp (Pos.compare_cont Eq mx my))
    by (symmetry; apply (Pos.compare_cont_antisym mx my Eq)).
  rewrite (Z.compare_antisym ex ey), Hm.
  destruct sx, sy; intros [= <-]; try reflexivity;
    destruct (ex ?= ey); cbn [CompOpp]; try reflexivity;
    destruct (Pos.compare_cont Eq mx my); reflexivity.
Qed.

Lemma SFcompare_some (x y : spec_float) :
  x <> S754_nan -> y <> S754_nan -> exists c, SFcompare x y = Some c.
Proof.
  destruct x, y; cbn [SFcompare]; intros Hx Hy; try congruence; eauto.
Qed.

Lemma SFltb_false_leb (x y : spec_float) :
  x <> S754_nan -> y <> S754_nan -> SFltb x y = false -> SFleb y x = true.
Proof.
  intros Hx Hy. destruct (SFcompare_some x y Hx Hy) as [c Hc].
  unfold SFltb, SFleb. rewrite (SFcompare_antisym _ _ _ Hc), Hc.
  destruct c; trivial; discriminate.
Qed.

Lemma SFltb_true_leb (x y : spec_float) :
  SFltb x y = true -> SFleb y x = false.
Proof.
  unfold SFltb, SFleb. destruct (SFcompare x y) as [c|] eqn:Hc; try discriminate.
  rewrite (SFcompare_antisym _ _ _ Hc). destruct c; trivial; discriminate.
Qed.

Lemma SFeqb_refl_nan (x : spec_float) : SFeqb x x = false -> x = S754_nan.
Proof.
  unfold SFeqb. destruct x as [s|s| |s m e]; cbn [SFcompare]; trivial.
  - discriminate.
  - destruct s; discriminate.
  - rewrite Z.compare_refl, Pos.compare_cont_refl. destruct s; discriminate.
Qed.

Lemma is_nan_spec (x : float) : is_nan x = true <-> x = nan.
Proof.
  split.
  - unfold is_nan. rewrite FloatAxioms.eqb_spec. intros H.
    apply Prim2SF_inj. rewrite (SFeqb_refl_nan (Prim2SF x)); [reflexivity|].
    now destruct (SFeqb (Prim2SF x) (Prim2SF x)).
  - intros ->. reflexivity.
Qed.

Lemma is_nan_false (x : float) : is_nan x = false <-> Prim2SF x <> S754_nan.
Proof.
  split.
  - intros H E. assert (x = nan) by (apply Prim2SF_inj; rewrite E; reflexivity).
    subst x. discriminate.
  - intros H. destruct (is_nan x) eqn:E; trivial.
    apply is_nan_spec in E. subst x. now elim H.
Qed.

Lemma ltb_true_leb (a b : float) : (a <? b)%float = true -> (b <=? a)%float = false.
Proof. rewrite FloatAxioms.ltb_spec, FloatAxioms.leb_spec. apply SFltb_true_leb. Qed.

Lemma ltb_false_leb (a b : float) :
  is_nan a = false -> is_nan b = false ->
  (a <? b)%float = false -> (b <=? a)%float = true.
Proof.
  intros Ha Hb. rewrite FloatAxioms.ltb_spec, FloatAxioms.leb_spec.
  apply SFltb_false_leb; now apply is_nan_false.
Qed.

Lemma ltb_nan_l (b : float) : (nan <? b)%float = false.
Proof. rewrite FloatAxioms.ltb_spec. reflexivity. Qed.

Lemma ltb_nan_r (a : float) : (a <? nan)%float = false.
Proof. rewrite FloatAxioms.ltb_spec. unfold SFltb. now destruct (Prim2SF a). Qed.

Lemma leb_not_nan_l (a b : float) : (a <=? b)%float = true -> is_nan a = false.
Proof.
  rewrite FloatAxioms.leb_spec. intros H. apply is_nan_false. intros E.
  rewrite E in H. discriminate.
Qed.

Lemma leb_not_nan_r (a b : float) : (a <=? b)%float = true -> is_nan b = false.
Proof.
  rewrite FloatAxioms.leb_spec. intros H. apply is_nan_false. intros E.
  rewrite E in H. unfold SFleb in H. now destruct (Prim2SF a).
Qed.

(** ** Sums and products of non-negative floats are not NaN *)

Lemma SFmul_finite_signed (sx sy : bool) (mx my : positive) (ex ey : Z) :
  SF_signed (xorb sx sy)
    (SFmul prec emax (S754_finite sx mx ex) (S754_finite sy my ey)).
Proof. cbn [SFmul]. apply binary_round_aux_signed. lia. Qed.

Lemma SFadd_pos_finite_signed (mx my : positive) (ex ey : Z) :
  SF_signed false
    (SFadd prec emax (S754_finite false mx ex) (S754_finite false my ey)).
Proof.
  cbn [SFadd cond_Zopp Z.add binary_normalize]. unfold binary_round.
  destruct (shl_align _ _ _) as [mz ez].
  apply binary_round_aux_signed. lia.
Qed.

Lemma leb_zero_cases (v : float) :
  (0 <=? v)%float = true ->
  (exists s, Prim2SF v = S754_zero s) \/ Prim2SF v = S754_infinity false
  \/ exists m e, Prim2SF v = S754_finite false m e.
Proof.
  rewrite FloatAxioms.leb_spec. change (Prim2SF 0) with (S754_zero false).
  destruct (Prim2SF v) as [s|s| |s m e]; cbn; intros H.
  - eauto.
  - destruct s; [discriminate | auto].
  - discriminate.
  - destruct s; [discriminate | eauto].
Qed.

Lemma spread_arg_not_nan (v : float) :
  (0 <=? v)%float = true -> is_nan (SmartMarketMaker.base_spread + v * 0.5)%float = false.
Proof.
  intros Hv. apply is_nan_false. rewrite add_spec, mul_spec.
  assert (Hb : exists m e, Prim2SF SmartMarketMaker.base_spread = S754_finite false m e)
    by (vm_compute; eauto).
  assert (Hh : exists m e, Prim2SF 0.5 = S754_finite false m e)
    by (vm_compute; eauto).
  destruct Hb as (mb & eb & ->), Hh as (mh & eh & ->).
  unfold SF64add, SF64mul.
  destruct (leb_zero_cases v Hv) as [[s ->] | [-> | (m & e & ->)]].
  - cbn. discriminate.
  - cbn. discriminate.
  - pose proof (SFmul_finite_signed false false m mh e eh) as Hy.
    destruct (SFmul prec emax _ _) as [s|s| |s my ey]; cbn in Hy; try tauto; subst s.
    + cbn. discriminate.
    + cbn. discriminate.
    + pose proof (SFadd_pos_finite_signed mb my eb ey) as Hz.
      destruct (SFadd prec emax _ _); cbn in Hz; try tauto; discriminate.
Qed.

(** ** The clamp *)

Lemma clamp_range (x : float) :
  is_nan x = false ->
  (SmartMarketMaker.min_spread <=? Py.min (Py.max x SmartMarketMaker.min_spread) SmartMarketMaker.max_spread)%float = true
  /\ (Py.min (Py.max x SmartMarketMaker.min_spread) SmartMarketMaker.max_spread <=? SmartMarketMaker.max_spread)%float = true.
Proof.
  intros Hx. unfold Py.max.
  destruct (x <? SmartMarketMaker.min_spread)%float eqn:E1.
  - vm_compute. auto.
  - unfold Py.min. destruct (SmartMarketMaker.max_spread <? x)%float eqn:E2.
    + vm_compute. auto.
    + split; apply ltb_false_leb; trivial.
Qed.

Lemma clamp_nan :
  Py.min (Py.max nan SmartMarketMaker.min_spread) SmartMarketMaker.max_spread = nan.
Proof. reflexivity. Qed.

Lemma dynamic_spread_cases (v : float) :
  SmartMarketMaker.dynamic_spread v = nan
  \/ ((SmartMarketMaker.min_spread <=? SmartMarketMaker.dynamic_spread v)%float = true
      /\ (SmartMarketMaker.dynamic_spread v <=? SmartMarketMaker.max_spread)%float = true).
Proof.
  unfold SmartMarketMaker.dynamic_spread.
  destruct (is_nan (SmartMarketMaker.base_spread + v * 0.5)%float) eqn:E.
  - apply is_nan_spec in E. rewrite E. left. reflexivity.
  - right. now apply clamp_range.
Qed.

(** ** [1 - h] and [1 + h] for [h] in the binades of the spread bounds *)

Lemma div_pow2_bounds (M lo hi : Z) (n : positive) :
  lo * 2 ^ Zpos n <= M < hi * 2 ^ Zpos n -> lo <= M / 2 ^ Zpos n < hi.
Proof.
  intros [Hlo Hhi].
  assert (0 < 2 ^ Zpos n) by (apply Z.pow_pos_nonneg; lia).
  split.
  - apply Z.div_le_lower_bound; lia.
  - apply Z.div_lt_upper_bound; lia.
Qed.

Lemma iter_xO_pow (m d : positive) :
  Zpos (Pos.iter xO m d) = Zpos m * 2 ^ Zpos d.
Proof.
  induction d as [|d IH] using Pos.peano_ind.
  - cbn [Pos.iter]. rewrite Z.pow_1_r. lia.
  - rewrite Pos.iter_succ, Pos2Z.inj_succ, Z.pow_succ_r by lia.
    rewrite Pos2Z.inj_xO, IH. ring.
Qed.

Lemma shl_align_fst (mx : positive) (ex ez : Z) :
  ez <= ex -> Zpos (fst (shl_align mx ex ez)) = Zpos mx * 2 ^ (ex - ez).
Proof.
  intros H. unfold shl_align.
  destruct (ez - ex) as [|d|d] eqn:E; cbn [fst].
  - replace (ex - ez) with 0 by lia. rewrite Z.pow_0_r. lia.
  - lia.
  - rewrite iter_xO_pow. f_equal. f_equal. lia.
Qed.

Lemma shl_align_ge (mx : positive) (ex ez : Z) :
  ex <= ez -> shl_align mx ex ez = (mx, ex).
Proof.
  intros H. unfold shl_align. destruct (ez - ex) eqn:E; trivial; lia.
Qed.

(** Rounding a positive mantissa [M] with [2^(52+n) <= M < 2^(53+n) - 2^n]
    at exponent [e]. *)
Lemma binary_round_shift (s : bool) (M n : positive) (e : Z) :
  2 ^ (52 + Zpos n) <= Zpos M -> Zpos M + 2 ^ Zpos n < 2 ^ (53 + Zpos n) ->
  -1074 <= e + Zpos n <= 971 ->
  exists p : positive,
    binary_round prec emax s M e = S754_finite s p (e + Zpos n)
    /\ Zpos M / 2 ^ Zpos n <= Zpos p <= Zpos M / 2 ^ Zpos n + 1
    /\ 2 ^ 52 <= Zpos p < 2 ^ 53.
Proof.
  intros Hlo Hhi He.
  assert (Hpow : 0 < 2 ^ Zpos n) by (apply Z.pow_pos_nonneg; lia).
  assert (Hd : Zpos (digits2_pos M) = 53 + Zpos n).
  { apply digits2_pos_unique. replace (53 + Zpos n - 1) with (52 + Zpos n) by lia. lia. }
  unfold binary_round. rewrite Hd.
  rewrite shl_align_ge by (unfold fexp, SpecFloat.emin, prec, emax; lia).
  apply binary_round_aux_shift; trivial.
  rewrite Z.pow_add_r in Hhi by lia.
  change (2 ^ 53) with 9007199254740992 in *.
  assert (Zpos M / 2 ^ Zpos n < 9007199254740991); [|lia].
  apply Z.div_lt_upper_bound; trivial. lia.
Qed.

Lemma pow2_range (n : positive) (a b : Z) :
  0 <= a <= Zpos n -> Zpos n <= b -> 2 ^ a <= 2 ^ Zpos n <= 2 ^ b.
Proof. intros Ha Hb. split; apply Z.pow_le_mono_r; lia. Qed.

Lemma SFadd_one_small (m : positive) (e : Z) :
  -63 <= e <= -60 -> 2 ^ 52 <= Zpos m < 2 ^ 53 ->
  exists p : positive,
    SFadd prec emax (S754_finite false 4503599627370496 (-52)) (S754_finite false m e)
    = S754_finite false p (-52)
    /\ 2 ^ 52 < Zpos p < 2 ^ 53.
Proof.
  intros He Hm. unfold SFadd. rewrite Z.min_r by lia.
  cbn [cond_Zopp Z.add binary_normalize].
  destruct (Z.sub (-52) e) as [|n|n] eqn:En; try lia.
  pose proof (shl_align_fst 4503599627370496 (-52) e) as Ha.
  pose proof (shl_align_fst m e e) as Hb.
  rewrite Z.sub_diag, Z.pow_0_r in Hb. rewrite En in Ha.
  set (a := fst (shl_align 4503599627370496 (-52) e)) in *.
  set (b := fst (shl_align m e e)) in *.
  pose proof (pow2_range n 8 11) as HP.
  change (2 ^ 8) with 256 in HP. change (2 ^ 11) with 2048 in HP.
  change (2 ^ 52) with 4503599627370496 in *.
  change (2 ^ 53) with 9007199254740992 in *.
  destruct (binary_round_shift false (a + b) n e) as (p & Hp & Hq & Hr).
  - rewrite Pos2Z.inj_add, Z.pow_add_r by lia.
    change (2 ^ 52) with 4503599627370496. lia.
  - rewrite Pos2Z.inj_add, Z.pow_add_r by lia.
    change (2 ^ 53) with 9007199254740992. lia.
  - lia.
  - replace (e + Zpos n) with (-52) in Hp by lia.
    exists p. split; [exact Hp|].
    change (2 ^ 52) with 4503599627370496 in *.
    change (2 ^ 53) with 9007199254740992 in *.
    assert (4503599627370497 <= Zpos (a + b) / 2 ^ Zpos n); [|lia].
    apply Z.div_le_lower_bound; [lia|]. rewrite Pos2Z.inj_add. lia.
Qed.

Lemma SFsub_one_small (m : positive) (e : Z) :
  -63 <= e <= -60 -> 2 ^ 52 <= Zpos m < 2 ^ 53 ->
  exists p : positive,
    SFsub prec emax (S754_finite false 4503599627370496 (-52)) (S754_finite false m e)
    = S754_finite false p (-53)
    /\ 2 ^ 52 <= Zpos p < 2 ^ 53.
Proof.
  intros He Hm. unfold SFsub. rewrite Z.min_r by lia.
  cbn [cond_Zopp].
  destruct (Z.sub (-53) e) as [|n|n] eqn:En; try lia.
  pose proof (shl_align_fst 4503599627370496 (-52) e) as Ha.
  pose proof (shl_align_fst m e e) as Hb.
  rewrite Z.sub_diag, Z.pow_0_r in Hb.
  replace (-52 - e) with (1 + Zpos n) in Ha by lia.
  rewrite Z.pow_add_r in Ha by lia. change (2 ^ 1) with 2 in Ha.
  set (a := fst (shl_align 4503599627370496 (-52) e)) in *.
  set (b := fst (shl_align m e e)) in *.
  pose proof (pow2_range n 7 10) as HP.
  change (2 ^ 7) with 128 in HP. change (2 ^ 10) with 1024 in HP.
  change (2 ^ 52) with 4503599627370496 in *.
  change (2 ^ 53) with 9007199254740992 in *.
  destruct (Z.sub (Zpos a) (Zpos b)) as [|k|k] eqn:Ek; try lia.
  cbn [binary_normalize].
  destruct (binary_round_shift false k n e) as (p & Hp & Hq & Hr).
  - rewrite Z.pow_add_r by lia. change (2 ^ 52) with 4503599627370496. lia.
  - rewrite Z.pow_add_r by lia. change (2 ^ 53) with 9007199254740992. lia.
  - lia.
  - replace (e + Zpos n) with (-53) in Hp by lia.
    exists p. split; [exact Hp|]. exact Hr.
Qed.

End Binary64.

(** ** The spread and the price factors [1 - spread], [1 + spread] *)

Section Spread.
Import SmartMarketMaker.
Local Open Scope Z_scope.

Lemma spread_range_finite (r : float) :
  (min_spread <=? r)%float = true -> (r <=? max_spread)%float = true ->
  exists (m : positive) (e : Z),
    Prim2SF r = S754_finite false m e
    /\ -63 <= e <= -60 /\ 2 ^ 52 <= Zpos m < 2 ^ 53.
Proof.
  intros Hlo Hhi. pose proof (Prim2SF_valid r) as Hv.
  rewrite FloatAxioms.leb_spec in Hlo, Hhi.
  change (Prim2SF min_spread) with (S754_finite false 4611686018427388 (-63)) in Hlo.
  change (Prim2SF max_spread) with (S754_finite false 5764607523034235 (-60)) in Hhi.
  unfold SFleb in Hlo, Hhi.
  destruct (Prim2SF r) as [s|s| |s m e]; cbn [SFcompare] in Hlo, Hhi;
    try discriminate; try (destruct s; discriminate).
  destruct s; [discriminate|].
  assert (He : -63 <= e <= -60).
  { split.
    - destruct (Z.compare_spec (-63) e); try lia; discriminate.
    - destruct (Z.compare_spec e (-60)); try lia; discriminate. }
  exists m, e. split; [reflexivity|]. split; [exact He|].
  cbn [SpecFloat.valid_binary] in Hv. unfold bounded, canonical_mantissa in Hv.
  apply andb_true_iff in Hv. destruct Hv as [Hc _].
  apply Z.eqb_eq in Hc. unfold fexp, SpecFloat.emin, prec, emax in Hc.
  pose proof (digits2_pos_bounds m) as Hb.
  replace (Zpos (digits2_pos m)) with 53 in Hb by lia.
  exact Hb.
Qed.

Lemma spread_factors (r : float) :
  (min_spread <=? r)%float = true -> (r <=? max_spread)%float = true ->
  exists p1 p2 : positive,
    Prim2SF (1 - r)%float = S754_finite false p1 (-53)
    /\ 2 ^ 52 <= Zpos p1 < 2 ^ 53
    /\ Prim2SF (1 + r)%float = S754_finite false p2 (-52)
    /\ 2 ^ 52 < Zpos p2 < 2 ^ 53.
Proof.
  intros Hlo Hhi.
  destruct (spread_range_finite r Hlo Hhi) as (m & e & Hr & He & Hm).
  destruct (SFsub_one_small m e He Hm) as (p1 & H1 & B1).
  destruct (SFadd_one_small m e He Hm) as (p2 & H2 & B2).
  exists p1, p2. rewrite sub_spec, add_spec, Hr.
  change (Prim2SF 1) with (S754_finite false 4503599627370496 (-52)).
  unfold SF64sub, SF64add. rewrite H1, H2. auto.
Qed.

End Spread.

(** ** Decimal context rounding *)

Section DecimalRounding.
Local Open Scope Z_scope.

Lemma digits10_fuel_bounds (fuel : nat) : forall n : Z,
  0 < n < 2 ^ Z.of_nat fuel ->
  1 <= decimal.digits10_fuel fuel n
  /\ 10 ^ (decimal.digits10_fuel fuel n - 1) <= n < 10 ^ decimal.digits10_fuel fuel n.
Proof.
  induction fuel as [|fuel IH]; intros n Hn.
  - cbn in Hn. lia.
  - cbn [decimal.digits10_fuel]. destruct (Z.ltb_spec n 10) as [Hlt | Hge].
    + cbn. lia.
    + assert (Hq : 0 < n / 10 < 2 ^ Z.of_nat fuel).
      { rewrite Nat2Z.inj_succ, Z.pow_succ_r in Hn by lia.
        split.
        - apply Z.div_str_pos. lia.
        - apply Z.div_lt_upper_bound; lia. }
      destruct (IH (n / 10) Hq) as (Hd & Hlo & Hhi).
      set (k := decimal.digits10_fuel fuel (n / 10)) in *.
      split; [lia|].
      replace (1 + k - 1) with (Z.succ (k - 1)) by lia.
      replace (1 + k) with (Z.succ k) by lia.
      rewrite !Z.pow_succ_r by lia.
      pose proof (Z.div_mod n 10 ltac:(lia)) as Hdm.
      pose proof (Z.mod_pos_bound n 10 ltac:(lia)) as Hm.
      lia.
Qed.

Lemma digits10_bounds (n : Z) :
  0 < n ->
  1 <= decimal.digits10 n /\ 10 ^ (decimal.digits10 n - 1) <= n < 10 ^ decimal.digits10 n.
Proof.
  intros Hn. apply digits10_fuel_bounds. split; [exact Hn|].
  rewrite Nat2Z.inj_succ, Z2Nat.id by apply Z.log2_nonneg.
  apply Z.log2_spec. exact Hn.
Qed.

Lemma pow10_pos (k : Z) : 0 < 10 ^ Z.max 0 k.
Proof. apply Z.pow_pos_nonneg; lia. Qed.

(** [10 ^ decimal.adjusted n d <= n / d], with both sides scaled to integers. *)
Lemma adjusted_lower (n d : Z) :
  0 < n -> 0 < d ->
  d * 10 ^ Z.max 0 (decimal.adjusted n d) <= n * 10 ^ Z.max 0 (- decimal.adjusted n d).
Proof.
  intros Hn Hd. unfold decimal.adjusted.
  destruct (digits10_bounds n Hn) as (Hn1 & Hnlo & _).
  destruct (digits10_bounds d Hd) as (Hd1 & _ & Hdhi).
  set (a := decimal.digits10 n) in *. set (b := decimal.digits10 d) in *.
  destruct (Z.leb_spec (d * 10 ^ Z.max 0 (a - b)) (n * 10 ^ Z.max 0 (- (a - b))))
    as [H | _]; [exact H|].
  destruct (Z.le_gt_cases 0 (a - b - 1)) as [Hk | Hk].
  - rewrite Z.max_r, Z.max_l by lia. rewrite Z.pow_0_r, Z.mul_1_r.
    assert (E : 10 ^ (a - 1) = 10 ^ b * 10 ^ (a - b - 1)).
    { rewrite <- Z.pow_add_r by lia. f_equal. lia. }
    assert (0 < 10 ^ (a - b - 1)) by (apply Z.pow_pos_nonneg; lia).
    nia.
  - rewrite Z.max_l, Z.max_r by lia. rewrite Z.pow_0_r, Z.mul_1_r.
    assert (E : 10 ^ b = 10 ^ (a - 1) * 10 ^ (- (a - b - 1))).
    { rewrite <- Z.pow_add_r by lia. f_equal. lia. }
    assert (0 < 10 ^ (- (a - b - 1))) by (apply Z.pow_pos_nonneg; lia).
    nia.
Qed.

Lemma round_half_even_error (n d : Z) :
  0 < d -> - d <= 2 * (decimal.round_half_even n d * d - n) <= d.
Proof.
  intros Hd. unfold decimal.round_half_even.
  pose proof (Z.div_mod n d ltac:(lia)) as Hdm.
  pose proof (Z.mod_pos_bound n d Hd) as Hm.
  set (q := n / d) in *. set (r := n mod d) in *.
  destruct (Z.compare_spec (2 * r) d) as [E | E | E];
    [destruct (Z.even q)| |]; nia.
Qed.

(** Rounding to 28 significant digits moves a positive number by less than
    one part in [10^27]. *)
Lemma round_pos_error (n d : positive) :
  ((Zpos n # d) * (999999999999999999999999999 # 1000000000000000000000000000)
   <= decimal.round_pos (Zpos n) (Zpos d))%Q
  /\ (decimal.round_pos (Zpos n) (Zpos d)
      <= (Zpos n # d) * (1000000000000000000000000001 # 1000000000000000000000000000))%Q.
Proof.
  pose proof (adjusted_lower (Zpos n) (Zpos d) ltac:(lia) ltac:(lia)) as Hadj.
  unfold decimal.round_pos, decimal.context_prec.
  set (e := decimal.adjusted (Zpos n) (Zpos d)) in *.
  set (k := e - (28 - 1)).
  pose proof (pow10_pos (- k)) as Hup. pose proof (pow10_pos k) as Hdown.
  set (up := 10 ^ Z.max 0 (- k)) in *. set (down := 10 ^ Z.max 0 k) in *.
  pose proof (round_half_even_error (Zpos n * up) (Zpos d * down) ltac:(lia)) as Hr.
  set (r := decimal.round_half_even (Zpos n * up) (Zpos d * down)) in *.
  assert (Hkey : 1000000000000000000000000000 * (Zpos d * down) <= Zpos n * up).
  { unfold up, down, k.
    destruct (Z.le_gt_cases 27 e) as [He | He].
    - rewrite (Z.max_l 0 (- (e - (28 - 1)))), (Z.max_r 0 (e - (28 - 1))) by lia.
      rewrite Z.max_r, Z.max_l in Hadj by lia.
      rewrite Z.pow_0_r, Z.mul_1_r in *.
      assert (E : 10 ^ e = 10 ^ 27 * 10 ^ (e - (28 - 1))).
      { rewrite <- Z.pow_add_r by lia. f_equal. lia. }
      change (10 ^ 27) with 1000000000000000000000000000 in E.
      rewrite E in Hadj. lia.
    - rewrite (Z.max_r 0 (- (e - (28 - 1)))), (Z.max_l 0 (e - (28 - 1))) by lia.
      rewrite Z.pow_0_r, Z.mul_1_r.
      destruct (Z.le_gt_cases 0 e) as [He0 | He0].
      + rewrite Z.max_r, Z.max_l in Hadj by lia.
        rewrite Z.pow_0_r, Z.mul_1_r in Hadj.
        assert (E : 10 ^ 27 = 10 ^ e * 10 ^ (- (e - (28 - 1)))).
        { rewrite <- Z.pow_add_r by lia. f_equal. lia. }
        change (10 ^ 27) with 1000000000000000000000000000 in E.
        assert (0 < 10 ^ (- (e - (28 - 1)))) by (apply Z.pow_pos_nonneg; lia).
        rewrite E. nia.
      + rewrite Z.max_l, Z.max_r in Hadj by lia.
        rewrite Z.pow_0_r, Z.mul_1_r in Hadj.
        assert (E : 10 ^ (- (e - (28 - 1))) = 10 ^ 27 * 10 ^ (- e)).
        { rewrite <- Z.pow_add_r by lia. f_equal. lia. }
        change (10 ^ 27) with 1000000000000000000000000000 in E.
        rewrite E. nia. }
  unfold Qle, Qmult. cbn [Qnum Qden].
  rewrite !Pos2Z.inj_mul, Z2Pos.id by lia.
  set (N := Zpos n * up) in *. set (D := Zpos d * down) in *.
  set (P := r * D) in *.
  split.
  - replace (Zpos n * 999999999999999999999999999 * up)
      with (999999999999999999999999999 * N) by (unfold N; ring).
    replace (r * down * (Zpos d * 1000000000000000000000000000))
      with (1000000000000000000000000000 * P) by (unfold P, D; ring).
    lia.
  - replace (r * down * (Zpos d * 1000000000000000000000000000))
      with (1000000000000000000000000000 * P) by (unfold P, D; ring).
    replace (Zpos n * 1000000000000000000000000001 * up)
      with (1000000000000000000000000001 * N) by (unfold N; ring).
    lia.
Qed.

Lemma round_zero (x : Q) : Qnum x = 0%Z -> decimal.round x = x.
Proof.
  intros H. unfold decimal.round. rewrite H.
  assert (E : Qeq_bool 0 x = true) by (apply Qeq_bool_iff; unfold Qeq; rewrite H; reflexivity).
  now rewrite E.
Qed.

Lemma round_raw_pos (x : Q) (n : positive) :
  Qnum x = Zpos n -> (decimal.round x == decimal.round_pos (Zpos n) (Zpos (Qden x)))%Q.
Proof.
  intros H. unfold decimal.round. rewrite H.
  destruct (Qeq_bool _ x) eqn:E; [|reflexivity].
  apply Qeq_bool_iff in E. now symmetry.
Qed.

Lemma round_raw_neg (x : Q) (n : positive) :
  Qnum x = Zneg n -> (decimal.round x == - decimal.round_pos (Zpos n) (Zpos (Qden x)))%Q.
Proof.
  intros H. unfold decimal.round. rewrite H.
  destruct (Qeq_bool _ x) eqn:E; [|reflexivity].
  apply Qeq_bool_iff in E. now symmetry.
Qed.

(** A positive number moves by less than one part in [10^27]. *)
Lemma round_error (x : Q) :
  (0 < x)%Q ->
  (x * (999999999999999999999999999 # 1000000000000000000000000000) <= decimal.round x)%Q
  /\ (decimal.round x <= x * (1000000000000000000000000001 # 1000000000000000000000000000))%Q.
Proof.
  intros Hx. destruct x as [num den]. unfold Qlt in Hx. cbn in Hx.
  destruct num as [|n|n]; try lia.
  rewrite (round_raw_pos (Zpos n # den) n eq_refl). cbn [Qden].
  apply round_pos_error.
Qed.

Lemma round_positive (x : Q) : (0 < x)%Q -> (0 < decimal.round x)%Q.
Proof.
  intros Hx. destruct (round_error x Hx) as [Hlo _].
  eapply Qlt_le_trans; [|exact Hlo].
  apply Qmult_lt_0_compat; [exact Hx | reflexivity].
Qed.

Lemma round_of_zero (x : Q) : (x == 0)%Q -> (decimal.round x == 0)%Q.
Proof.
  intros Hx. rewrite round_zero; [exact Hx|].
  unfold Qeq in Hx. cbn in Hx. lia.
Qed.

End DecimalRounding.

(** ** Decimal values of the script's floats *)

Section Decimals.
Import hummingbot SmartMarketMaker.

Lemma Qlt_bool_iff (x y : Q) : decimal.Qlt_bool x y = true <-> (x < y)%Q.
Proof.
  unfold decimal.Qlt_bool. rewrite negb_true_iff. split.
  - intros H. apply Qnot_le_lt. intros Hle.
    apply Qle_bool_iff in Hle. congruence.
  - intros H. destruct (Qle_bool y x) eqn:E; trivial.
    apply Qle_bool_iff in E. now apply Qlt_not_le in H.
Qed.

Lemma from_float_nan : decimal.from_float nan = decimal.NaN.
Proof. reflexivity. Qed.

Lemma from_float_finite (f : float) (s : bool) (m : positive) (e : Z) :
  Prim2SF f = S754_finite s m e ->
  decimal.from_float f = decimal.Finite (decimal.SF2Q s m e).
Proof. intros H. unfold decimal.from_float. now rewrite H. Qed.

(** For a spread within its bounds, [Decimal(1 - spread)] lies strictly
    between 0 and 1 and [Decimal(1 + spread)] strictly above 1. *)
Lemma price_factors (r : float) :
  (min_spread <=? r)%float = true -> (r <=? max_spread)%float = true ->
  exists f1 f2 : Q,
    decimal.from_float (1 - r)%float = decimal.Finite f1
    /\ decimal.from_float (1 + r)%float = decimal.Finite f2
    /\ (0 < f1)%Q /\ (f1 < 1)%Q /\ (1 < f2)%Q.
Proof.
  intros Hlo Hhi.
  destruct (spread_factors r Hlo Hhi) as (p1 & p2 & H1 & B1 & H2 & B2).
  exists (decimal.SF2Q false p1 (-53)), (decimal.SF2Q false p2 (-52)).
  rewrite (from_float_finite _ _ _ _ H1), (from_float_finite _ _ _ _ H2).
  change (2 ^ 52)%Z with 4503599627370496%Z in *.
  change (2 ^ 53)%Z with 9007199254740992%Z in *.
  repeat split; unfold decimal.SF2Q, Qlt; cbn [Qnum Qden].
  - change (Zpos (2 ^ 53)) with 9007199254740992%Z. lia.
  - change (Zpos (2 ^ 52)) with 4503599627370496%Z. lia.
Qed.

(** The two price computations of [create_proposal] do not raise: the
    spread is NaN or within its bounds, never infinite. *)
Lemma prices_ok (p : Q) (v : float) :
  let h := dynamic_spread v in
  (h = nan
   /\ decimal.mul (decimal.Finite p) (decimal.from_float (1 - h)%float)
      = Py.Ok decimal.NaN
   /\ decimal.mul (decimal.Finite p) (decimal.from_float (1 + h)%float)
      = Py.Ok decimal.NaN)
  \/ ((min_spread <=? h)%float = true /\ (h <=? max_spread)%float = true
      /\ exists f1 f2 : Q,
           decimal.from_float (1 - h)%float = decimal.Finite f1
           /\ decimal.from_float (1 + h)%float = decimal.Finite f2
           /\ (0 < f1)%Q /\ (f1 < 1)%Q /\ (1 < f2)%Q
           /\ decimal.mul (decimal.Finite p) (decimal.from_float (1 - h)%float)
              = Py.Ok (decimal.Finite (decimal.round (p * f1)))
           /\ decimal.mul (decimal.Finite p) (decimal.from_float (1 + h)%float)
              = Py.Ok (decimal.Finite (decimal.round (p * f2)))).
Proof.
  cbv zeta. destruct (dynamic_spread_cases v) as [Hn | [Hlo Hhi]].
  - left. rewrite Hn. repeat split; reflexivity.
  - right. split; [exact Hlo|]. split; [exact Hhi|].
    destruct (price_factors _ Hlo Hhi) as (f1 & f2 & H1 & H2 & B).
    exists f1, f2. rewrite H1, H2. cbn [decimal.mul]. tauto.
Qed.

(** The thresholds 0.8 and 0.2 as the binary64 values the script compares
    against. *)
Lemma from_float_thresholds :
  decimal.from_float 0.8 = decimal.Finite (7205759403792794 # 9007199254740992)
  /\ decimal.from_float 0.2 = decimal.Finite (7205759403792794 # 36028797018963968).
Proof. split; reflexivity. Qed.

Lemma too_skewed_Dec (q : Q) :
  too_skewed (decimal.Dec (decimal.Finite q))
  = Py.Ok (decimal.Qlt_bool (7205759403792794 # 9007199254740992) q
           || decimal.Qlt_bool q (7205759403792794 # 36028797018963968)).
Proof.
  unfold too_skewed, decimal.gt_float, decimal.lt_float.
  destruct from_float_thresholds as [-> ->]. cbn [decimal.lt Py.bind].
  now destruct (decimal.Qlt_bool _ q).
Qed.

Lemma too_skewed_neutral : too_skewed (decimal.Flt 0.5) = Py.Ok false.
Proof. reflexivity. Qed.

Lemma too_skewed_ok (base_balance quote_balance ref_price : Q) :
  exists b : bool,
    too_skewed (inventory_ratio base_balance quote_balance ref_price) = Py.Ok b.
Proof.
  unfold inventory_ratio. destruct (decimal.Qlt_bool 0 _).
  - rewrite too_skewed_Dec. eauto.
  - rewrite too_skewed_neutral. eauto.
Qed.

Lemma half_amount_ok :
  decimal.mul (decimal.from_float base_order_amount) (decimal.from_float 0.5)
  = Py.Ok (decimal.Finite
             (5000000000000000104083408559 # 1000000000000000000000000000000)).
Proof. vm_compute. reflexivity. Qed.

Lemma order_amount_ok (ratio : decimal.number) (b : bool) :
  too_skewed ratio = Py.Ok b ->
  exists amt : decimal.Decimal,
    order_amount ratio = Py.Ok amt
    /\ (if b
        then decimal.mul (decimal.from_float base_order_amount)
               (decimal.from_float 0.5) = Py.Ok amt
        else amt = decimal.from_float base_order_amount).
Proof.
  intros Hb. unfold order_amount. rewrite Hb. cbn [Py.bind].
  destruct b.
  - rewrite half_amount_ok. eauto.
  - eauto.
Qed.

(** In the model [create_proposal] returns whenever the frame has a last
    row: its result is the empty list or the BUY/SELL pair built from the
    values it computed. *)
Lemma create_proposal_ok (self : Env) (latest : Row) :
  Py.last_item (get_candles_with_indicators self) = Py.Ok latest ->
  let conn := connectors self exchange in
  let ref_price := ConnectorBase.get_price_by_type conn trading_pair price_source in
  let spread := dynamic_spread (volatility latest) in
  exists (buy_price sell_price amt : decimal.Decimal),
    decimal.mul (decimal.Finite ref_price) (decimal.from_float (1 - spread)%float)
    = Py.Ok buy_price
    /\ decimal.mul (decimal.Finite ref_price) (decimal.from_float (1 + spread)%float)
       = Py.Ok sell_price
    /\ order_amount
         (inventory_ratio (ConnectorBase.get_balance conn "ETH")
            (ConnectorBase.get_balance conn "USDT") ref_price)
       = Py.Ok amt
    /\ create_proposal self
       = Py.Ok (if trend_too_strong (RSI_14 latest) then []
                else [OrderCandidate.Build trading_pair true LIMIT BUY amt buy_price;
                      OrderCandidate.Build trading_pair true LIMIT SELL amt sell_price]).
Proof.
  intros Hlatest conn ref_price spread.
  assert (Hp : exists bp sp,
             decimal.mul (decimal.Finite ref_price) (decimal.from_float (1 - spread)%float)
             = Py.Ok bp
             /\ decimal.mul (decimal.Finite ref_price) (decimal.from_float (1 + spread)%float)
                = Py.Ok sp).
  { destruct (prices_ok ref_price (volatility latest))
      as [(_ & H1 & H2) | (_ & _ & f1 & f2 & _ & _ & _ & _ & _ & H1 & H2)]; eauto. }
  destruct Hp as (bp & sp & Hbp & Hsp).
  destruct (too_skewed_ok (ConnectorBase.get_balance conn "ETH")
              (ConnectorBase.get_balance conn "USDT") ref_price) as [b Hb].
  destruct (order_amount_ok _ b Hb) as (amt & Hamt & _).
  exists bp, sp, amt. repeat split; trivial.
  unfold create_proposal.
  change (Py.unpack2 (Py.split "-" trading_pair)) with (Py.Ok ("ETH", "USDT")%string).
  cbn [Py.bind]. rewrite Hlatest. cbn [Py.bind].
  fold conn. fold ref_price. fold spread.
  rewrite Hbp, Hsp. cbn [Py.bind]. rewrite Hamt. cbn [Py.bind].
  now destruct (trend_too_strong (RSI_14 latest)).
Qed.

End Decimals.

(** ** Spread model *)

Section SpreadModel.
Import SmartMarketMaker.

Lemma dynamic_spread_is_clamp (v : float) :
  dynamic_spread v = Spec.computeSpread v.
Proof.
  unfold dynamic_spread, Spec.computeSpread, Spec.clamp, Py.max, Py.min.
  change base_spread with 0.001%float.
  change min_spread with 0.0005%float.
  change max_spread with 0.005%float.
  destruct (0.001 + v * 0.5 <? 0.0005)%float; reflexivity.
Qed.

(** C3: for every volatility [v >= 0], [dynamic_spread v] is
    [clamp(0.001 + v * 0.5, 0.0005, 0.005)] and lies in the closed interval
    [[0.0005, 0.005]]; [dynamic_spread 0] is exactly [0.001]. *)
Theorem dynamic_spread_clamped (v : float) :
  (0 <=? v)%float = true ->
  dynamic_spread v = Spec.clamp (0.001 + v * 0.5)%float 0.0005 0.005
  /\ (0.0005 <=? dynamic_spread v)%float = true
  /\ (dynamic_spread v <=? 0.005)%float = true
  /\ dynamic_spread 0 = 0.001%float.
Proof.
  intros Hv. split; [apply dynamic_spread_is_clamp|].
  destruct (clamp_range (base_spread + v * 0.5)%float (spread_arg_not_nan v Hv))
    as [Hlo Hhi].
  repeat split; trivial.
Qed.

Lemma dynamic_spread_clamped_witness :
  dynamic_spread 0.002 = Spec.clamp (0.001 + 0.002 * 0.5)%float 0.0005 0.005
  /\ (0.0005 <=? dynamic_spread 0.002)%float = true
  /\ (dynamic_spread 0.002 <=? 0.005)%float = true
  /\ dynamic_spread 0 = 0.001%float.
Proof. apply (dynamic_spread_clamped 0.002). reflexivity. Defined.

End SpreadModel.

(** ** Quote proposer *)

Section QuoteProposer.
Import hummingbot SmartMarketMaker.

Lemma trend_too_strong_nan (rsi : float) :
  is_nan rsi = true -> trend_too_strong rsi = false.
Proof. intros H. apply is_nan_spec in H. subst rsi. reflexivity. Qed.

(** C1, as stated, fails: with fourteen candles the latest RSI_14 is NaN
    and [create_proposal] still returns the BUY/SELL pair. *)
Lemma warming_up_counterexample :
  ~ (forall (self : Env) (latest : Row),
       (List.length (get_candles_with_indicators self) < 15)%nat ->
       Py.last_item (get_candles_with_indicators self) = Py.Ok latest ->
       is_nan (RSI_14 latest) = true ->
       create_proposal self = Py.Ok []).
Proof.
  intros H.
  specialize (H Examples.warming_up (Examples.row nan 0.002)).
  assert (Hlen : (List.length (get_candles_with_indicators Examples.warming_up) < 15)%nat)
    by (cbn; lia).
  specialize (H Hlen eq_refl eq_refl).
  vm_compute in H. discriminate H.
Qed.

(** C1 (amended): when the latest RSI_14 is NaN, the reading of a trend
    signal that is not ready, the trend filter does not fire:
    [create_proposal] returns the BUY/SELL pair, not the empty proposal. *)
Theorem not_ready_rsi_still_quotes (self : Env) (latest : Row) :
  Py.last_item (get_candles_with_indicators self) = Py.Ok latest ->
  is_nan (RSI_14 latest) = true ->
  exists (buy_price sell_price amt : decimal.Decimal),
    create_proposal self
    = Py.Ok [OrderCandidate.Build trading_pair true LIMIT BUY amt buy_price;
             OrderCandidate.Build trading_pair true LIMIT SELL amt sell_price].
Proof.
  intros Hlatest Hnan.
  destruct (create_proposal_ok self latest Hlatest) as (bp & sp & amt & _ & _ & _ & H).
  rewrite (trend_too_strong_nan _ Hnan) in H. eauto.
Qed.

Lemma not_ready_rsi_still_quotes_witness :
  exists (buy_price sell_price amt : decimal.Decimal),
    create_proposal Examples.warming_up
    = Py.Ok [OrderCandidate.Build trading_pair true LIMIT BUY amt buy_price;
             OrderCandidate.Build trading_pair true LIMIT SELL amt sell_price].
Proof.
  apply (not_ready_rsi_still_quotes Examples.warming_up (Examples.row nan 0.002));
    reflexivity.
Defined.

(** C2: the proposal is suppressed exactly when the trend signal [t]
    satisfies [t > 75] or [t < 25]; [t = 25] and [t = 75] are not suppressed,
    and [t = 80] gives the empty proposal whatever the prices and amount. *)
Theorem trend_filter_suppresses (self : Env) (latest : Row) :
  Py.last_item (get_candles_with_indicators self) = Py.Ok latest ->
  let t := RSI_14 latest in
  (create_proposal self = Py.Ok []
   <-> ((75 <? t)%float = true \/ (t <? 25)%float = true))
  /\ (t = 25%float -> create_proposal self <> Py.Ok [])
  /\ (t = 75%float -> create_proposal self <> Py.Ok [])
  /\ (t = 80%float -> create_proposal self = Py.Ok []).
Proof.
  intros Hlatest t.
  destruct (create_proposal_ok self latest Hlatest) as (bp & sp & amt & _ & _ & _ & H).
  fold t in H.
  assert (Hiff : create_proposal self = Py.Ok [] <-> trend_too_strong t = true).
  { rewrite H. destruct (trend_too_strong t); split; intros E;
      try reflexivity; discriminate E. }
  assert (Hor : trend_too_strong t = true
                <-> ((75 <? t)%float = true \/ (t <? 25)%float = true))
    by apply orb_true_iff.
  repeat split.
  - intros E. apply Hor, Hiff, E.
  - intros E. apply Hiff, Hor, E.
  - intros E F. apply Hiff in F. rewrite E in F. discriminate F.
  - intros E F. apply Hiff in F. rewrite E in F. discriminate F.
  - intros E. apply Hiff. rewrite E. reflexivity.
Qed.

Lemma trend_filter_suppresses_witness :
  (create_proposal Examples.trending = Py.Ok []
   <-> ((75 <? 80)%float = true \/ (80 <? 25)%float = true))
  /\ (80%float = 25%float -> create_proposal Examples.trending <> Py.Ok [])
  /\ (80%float = 75%float -> create_proposal Examples.trending <> Py.Ok [])
  /\ (80%float = 80%float -> create_proposal Examples.trending = Py.Ok []).
Proof.
  apply (trend_filter_suppresses Examples.trending (Examples.row 80 0.002)).
  reflexivity.
Defined.

End QuoteProposer.

(** ** Inventory sizer *)

Section InventorySizer.
Import hummingbot SmartMarketMaker.

(** The amount is one of the two tiers. *)
Lemma order_amount_two_tier (base_balance quote_balance ref_price : Q) :
  let ratio := inventory_ratio base_balance quote_balance ref_price in
  order_amount ratio = Py.Ok (decimal.from_float base_order_amount)
  \/ order_amount ratio
     = decimal.mul (decimal.from_float base_order_amount) (decimal.from_float 0.5).
Proof.
  intros ratio. destruct (too_skewed_ok base_balance quote_balance ref_price) as [b Hb].
  fold ratio in Hb. destruct (order_amount_ok ratio b Hb) as (amt & Ha & Hc).
  destruct b; [right | left]; congruence.
Qed.

(** C5 fails at an inventory ratio of exactly 0.2.  With 1 unit of base at
    price 20 and 80 of quote, the specified sizer keeps the full amount; the
    script compares the decimal 0.2 with the binary64 value of the literal
    [0.2], which is larger, and halves the amount. *)
Lemma ratio_one_fifth_is_halved :
  (Spec.inventoryRatio 1 80 20 == 2 # 10)%Q
  /\ (Spec.computeAmount 1 80 20 == Spec.baseOrderAmount)%Q
  /\ inventory_ratio 1 80 20 = decimal.Dec (decimal.Finite ((1 * 20) / (80 + 1 * 20)))
  /\ too_skewed (inventory_ratio 1 80 20) = Py.Ok true
  /\ order_amount (inventory_ratio 1 80 20)
     = decimal.mul (decimal.from_float base_order_amount) (decimal.from_float 0.5)
  /\ order_amount (inventory_ratio 1 80 20)
     <> Py.Ok (decimal.from_float base_order_amount).
Proof.
  repeat split; try reflexivity.
  vm_compute. discriminate.
Qed.

End InventorySizer.

(** ** Order placement *)

Section OrderPlacement.
Import hummingbot SmartMarketMaker.

Lemma in_place_orders (proposal : list OrderCandidate.t) (c : Call) :
  In c (place_orders proposal)
  <-> exists order, In order proposal /\ In c (place_order exchange order).
Proof. unfold place_orders. apply in_flat_map. Qed.

Lemma place_order_buy (connector_name : string) (order : OrderCandidate.t) :
  OrderCandidate.order_side order = BUY ->
  place_order connector_name order
  = [buy connector_name (OrderCandidate.trading_pair order)
       (OrderCandidate.amount order) (OrderCandidate.order_type order)
       (OrderCandidate.price order)].
Proof. intros H. unfold place_order. now rewrite H. Qed.

Lemma place_order_sell (connector_name : string) (order : OrderCandidate.t) :
  OrderCandidate.order_side order = SELL ->
  place_order connector_name order
  = [sell connector_name (OrderCandidate.trading_pair order)
       (OrderCandidate.amount order) (OrderCandidate.order_type order)
       (OrderCandidate.price order)].
Proof. intros H. unfold place_order. now rewrite H. Qed.

(** C10: a candidate whose side is neither BUY nor SELL is not submitted
    and raises nothing; every call [place_orders] makes is the [buy] of a
    BUY candidate or the [sell] of a SELL candidate of the proposal. *)
Theorem place_order_ignores_other_sides (connector_name : string)
    (order : OrderCandidate.t) :
  OrderCandidate.order_side order <> BUY ->
  OrderCandidate.order_side order <> SELL ->
  place_order connector_name order = []
  /\ forall (proposal : list OrderCandidate.t) (c : Call),
       In c (place_orders proposal) ->
       exists o, In o proposal
         /\ ((OrderCandidate.order_side o = BUY
              /\ c = buy exchange (OrderCandidate.trading_pair o) (OrderCandidate.amount o)
                       (OrderCandidate.order_type o) (OrderCandidate.price o))
             \/ (OrderCandidate.order_side o = SELL
                 /\ c = sell exchange (OrderCandidate.trading_pair o) (OrderCandidate.amount o)
                          (OrderCandidate.order_type o) (OrderCandidate.price o))).
Proof.
  intros Hb Hs. split.
  - unfold place_order. destruct (OrderCandidate.order_side order); congruence.
  - intros proposal c Hc. apply in_place_orders in Hc. destruct Hc as (o & Hin & Hc).
    exists o. split; [exact Hin|]. unfold place_order in Hc.
    destruct (OrderCandidate.order_side o); cbn [In] in Hc.
    + left. destruct Hc as [<- | []]. auto.
    + right. destruct Hc as [<- | []]. auto.
    + destruct Hc.
Qed.

Lemma place_order_ignores_other_sides_witness :
  let order := OrderCandidate.Build "ETH-USDT" true LIMIT RANGE
                 (decimal.Finite (1 # 100)) (decimal.Finite 1996) in
  place_order exchange order = []
  /\ forall (proposal : list OrderCandidate.t) (c : Call),
       In c (place_orders proposal) ->
       exists o, In o proposal
         /\ ((OrderCandidate.order_side o = BUY
              /\ c = buy exchange (OrderCandidate.trading_pair o) (OrderCandidate.amount o)
                       (OrderCandidate.order_type o) (OrderCandidate.price o))
             \/ (OrderCandidate.order_side o = SELL
                 /\ c = sell exchange (OrderCandidate.trading_pair o) (OrderCandidate.amount o)
                          (OrderCandidate.order_type o) (OrderCandidate.price o))).
Proof.
  intros order. apply (place_order_ignores_other_sides exchange order); discriminate.
Defined.

End OrderPlacement.

(** ** Tick scheduler and order lifecycle *)

Section Tick.
Import hummingbot SmartMarketMaker.

Lemma on_tick_due (self : Env) (st : t) :
  (create_timestamp st <=? current_timestamp self)%float = true ->
  ready_to_trade self = true ->
  on_tick self st
  = match create_proposal self with
    | Py.Raise e =>
        {| calls := cancel_all_orders self; after := st; raised := Some e |}
    | Py.Ok proposal =>
        {| calls := cancel_all_orders self
                    ++ place_orders (adjust_proposal_to_budget self proposal);
           after := {| create_timestamp := (current_timestamp self + 15)%float |};
           raised := None |}
    end.
Proof. intros Hdue Hready. unfold on_tick. rewrite Hdue, Hready. reflexivity. Qed.

Lemma place_orders_no_cancel (proposal : list OrderCandidate.t) (c : Call) :
  In c (place_orders proposal) ->
  forall connector_name pair order_id, c <> cancel connector_name pair order_id.
Proof.
  intros Hc connector_name pair order_id E. subst c.
  apply in_place_orders in Hc. destruct Hc as (o & _ & Hc).
  unfold place_order in Hc.
  destruct (OrderCandidate.order_side o); cbn [In] in Hc;
    intuition discriminate.
Qed.

(** C9: on a due, ready tick every intent of the budget-adjusted proposal
    is submitted by its side, a BUY intent through [buy] and a SELL intent
    through [sell], with the intent's own pair, amount, order type and
    price. *)
Theorem surviving_intents_submitted_by_side (self : Env) (st : t)
    (proposal : list OrderCandidate.t) (order : OrderCandidate.t) :
  (create_timestamp st <=? current_timestamp self)%float = true ->
  ready_to_trade self = true ->
  create_proposal self = Py.Ok proposal ->
  In order (adjust_proposal_to_budget self proposal) ->
  (OrderCandidate.order_side order = BUY ->
   place_order exchange order
   = [buy exchange (OrderCandidate.trading_pair order) (OrderCandidate.amount order)
        (OrderCandidate.order_type order) (OrderCandidate.price order)]
   /\ In (buy exchange (OrderCandidate.trading_pair order) (OrderCandidate.amount order)
            (OrderCandidate.order_type order) (OrderCandidate.price order))
         (calls (on_tick self st)))
  /\ (OrderCandidate.order_side order = SELL ->
      place_order exchange order
      = [sell exchange (OrderCandidate.trading_pair order) (OrderCandidate.amount order)
           (OrderCandidate.order_type order) (OrderCandidate.price order)]
      /\ In (sell exchange (OrderCandidate.trading_pair order) (OrderCandidate.amount order)
               (OrderCandidate.order_type order) (OrderCandidate.price order))
            (calls (on_tick self st))).
Proof.
  intros Hdue Hready Hprop Hin.
  rewrite (on_tick_due self st Hdue Hready), Hprop. cbn [calls].
  split; intros Hside.
  - pose proof (place_order_buy exchange order Hside) as E.
    split; [exact E|]. apply in_or_app. right.
    apply in_place_orders. exists order. split; [exact Hin|]. rewrite E. now left.
  - pose proof (place_order_sell exchange order Hside) as E.
    split; [exact E|]. apply in_or_app. right.
    apply in_place_orders. exists order. split; [exact Hin|]. rewrite E. now left.
Qed.

Lemma surviving_intents_submitted_by_side_witness :
  let order := OrderCandidate.Build trading_pair true LIMIT BUY
                 (decimal.Finite (5764607523034235 # 576460752303423488))
                 (decimal.Finite (1995999999999999996447286321 # 1000000000000000000000000)) in
  (BUY = BUY ->
   place_order exchange order
   = [buy exchange trading_pair
        (decimal.Finite (5764607523034235 # 576460752303423488)) LIMIT
        (decimal.Finite (1995999999999999996447286321 # 1000000000000000000000000))]
   /\ In (buy exchange trading_pair
            (decimal.Finite (5764607523034235 # 576460752303423488)) LIMIT
            (decimal.Finite (1995999999999999996447286321 # 1000000000000000000000000)))
         (calls (on_tick Examples.quoting init)))
  /\ (BUY = SELL ->
      place_order exchange order
      = [sell exchange trading_pair
           (decimal.Finite (5764607523034235 # 576460752303423488)) LIMIT
           (decimal.Finite (1995999999999999996447286321 # 1000000000000000000000000))]
      /\ In (sell exchange trading_pair
               (decimal.Finite (5764607523034235 # 576460752303423488)) LIMIT
               (decimal.Finite (1995999999999999996447286321 # 1000000000000000000000000)))
            (calls (on_tick Examples.quoting init))).
Proof.
  intros order.
  destruct (create_proposal Examples.quoting) as [proposal|e] eqn:E;
    [|vm_compute in E; discriminate E].
  apply (surviving_intents_submitted_by_side Examples.quoting init proposal order);
    [reflexivity | reflexivity | exact E |].
  vm_compute in E. injection E as <-. now left.
Defined.

(** C6: a tick that arrives while [now < create_timestamp], or while the
    strategy is not ready to trade, does nothing: no cancel, no submission,
    and [create_timestamp] is unchanged. *)
Theorem early_or_unready_tick_is_noop (self : Env) (st : t) :
  (current_timestamp self <? create_timestamp st)%float = true
  \/ ready_to_trade self = false ->
  on_tick self st = {| calls := []; after := st; raised := None |}.
Proof.
  intros [Hearly | Hready]; unfold on_tick.
  - rewrite (ltb_true_leb _ _ Hearly). reflexivity.
  - rewrite Hready, andb_false_r. reflexivity.
Qed.

Lemma early_or_unready_tick_is_noop_witness :
  on_tick Examples.quoting {| create_timestamp := 115 |}
  = {| calls := []; after := {| create_timestamp := 115 |}; raised := None |}.
Proof.
  apply (early_or_unready_tick_is_noop Examples.quoting {| create_timestamp := 115 |}).
  left. reflexivity.
Defined.

(** C7: on a due, ready tick whose budget-adjusted proposal is empty,
    because the budget checker returned nothing or because the proposal was
    suppressed, nothing is submitted, every active order is still
    cancelled, and [create_timestamp] becomes [now + 15]. *)
Theorem empty_proposal_tick (self : Env) (st : t)
    (proposal : list OrderCandidate.t) :
  (create_timestamp st <=? current_timestamp self)%float = true ->
  ready_to_trade self = true ->
  create_proposal self = Py.Ok proposal ->
  adjust_proposal_to_budget self proposal = []
  \/ (proposal = [] /\ adjust_proposal_to_budget self [] = []) ->
  on_tick self st
  = {| calls := cancel_all_orders self;
       after := {| create_timestamp := (current_timestamp self + 15)%float |};
       raised := None |}
  /\ (forall c, In c (calls (on_tick self st)) ->
      exists pair order_id, c = cancel exchange pair order_id)
  /\ (forall order, In order (get_active_orders self exchange) ->
      In (cancel exchange (LimitOrder.trading_pair order)
            (LimitOrder.client_order_id order))
         (calls (on_tick self st))).
Proof.
  intros Hdue Hready Hprop Hempty.
  assert (Hadj : adjust_proposal_to_budget self proposal = []).
  { destruct Hempty as [H | [-> H]]; exact H. }
  assert (E : on_tick self st
              = {| calls := cancel_all_orders self;
                   after := {| create_timestamp := (current_timestamp self + 15)%float |};
                   raised := None |}).
  { rewrite (on_tick_due self st Hdue Hready), Hprop, Hadj.
    cbn [place_orders flat_map]. now rewrite app_nil_r. }
  split; [exact E|]. rewrite E. cbn [calls]. unfold cancel_all_orders. split.
  - intros c Hc. apply in_map_iff in Hc. destruct Hc as (o & <- & _). eauto.
  - intros order Hin. apply in_map_iff. eauto.
Qed.

Lemma empty_proposal_tick_witness :
  on_tick Examples.broke init
  = {| calls := cancel_all_orders Examples.broke;
       after := {| create_timestamp := (100 + 15)%float |};
       raised := None |}
  /\ (forall c, In c (calls (on_tick Examples.broke init)) ->
      exists pair order_id, c = cancel exchange pair order_id)
  /\ (forall order, In order (get_active_orders Examples.broke exchange) ->
      In (cancel exchange (LimitOrder.trading_pair order)
            (LimitOrder.client_order_id order))
         (calls (on_tick Examples.broke init))).
Proof.
  destruct (create_proposal Examples.broke) as [proposal|e] eqn:E;
    [|vm_compute in E; discriminate E].
  apply (empty_proposal_tick Examples.broke init proposal);
    [reflexivity | reflexivity | exact E | left; reflexivity].
Defined.

(** C8: on a due, ready tick the script cancels exactly the active orders
    of its pair.  The orders [get_active_orders] enumerates are the
    strategy's own, and it only ever submits on [trading_pair], so each of
    them is taken to be of that pair.  Then every active order is cancelled
    by its identifier, every cancellation is that of an active order and
    names [trading_pair], never another pair, and all cancellations come
    first: the calls of the tick are the cancellations followed by the
    submissions, which hold no cancellation, and the cancellations are made
    even when [create_proposal] then raises. *)
Theorem tick_cancels_active_orders_of_pair (self : Env) (st : t) :
  (create_timestamp st <=? current_timestamp self)%float = true ->
  ready_to_trade self = true ->
  (forall order, In order (get_active_orders self exchange) ->
   LimitOrder.trading_pair order = trading_pair) ->
  exists submissions : list Call,
    calls (on_tick self st) = cancel_all_orders self ++ submissions
    /\ cancel_all_orders self
       = map (fun order => cancel exchange trading_pair
                             (LimitOrder.client_order_id order))
           (get_active_orders self exchange)
    /\ submissions
       = match create_proposal self with
         | Py.Ok proposal => place_orders (adjust_proposal_to_budget self proposal)
         | Py.Raise _ => []
         end
    /\ (forall order, In order (get_active_orders self exchange) ->
        In (cancel exchange trading_pair (LimitOrder.client_order_id order))
           (calls (on_tick self st)))
    /\ (forall connector_name pair order_id,
        In (cancel connector_name pair order_id) (calls (on_tick self st)) ->
        connector_name = exchange /\ pair = trading_pair
        /\ exists order, In order (get_active_orders self exchange)
             /\ LimitOrder.client_order_id order = order_id)
    /\ (forall c, In c submissions ->
        forall connector_name pair order_id,
          c <> cancel connector_name pair order_id).
Proof.
  intros Hdue Hready Hpair.
  assert (Hmap : cancel_all_orders self
                 = map (fun order => cancel exchange trading_pair
                                       (LimitOrder.client_order_id order))
                     (get_active_orders self exchange)).
  { unfold cancel_all_orders. apply map_ext_in. intros o Ho.
    now rewrite (Hpair o Ho). }
  set (submissions := match create_proposal self with
                      | Py.Ok proposal =>
                          place_orders (adjust_proposal_to_budget self proposal)
                      | Py.Raise _ => []
                      end).
  assert (Hcalls : calls (on_tick self st) = cancel_all_orders self ++ submissions).
  { rewrite (on_tick_due self st Hdue Hready). unfold submissions.
    destruct (create_proposal self); cbn [calls]; [reflexivity|].
    now rewrite app_nil_r. }
  assert (Hsub : forall c, In c submissions ->
                 forall connector_name pair order_id,
                   c <> cancel connector_name pair order_id).
  { unfold submissions. intros c Hc.
    destruct (create_proposal self); [|destruct Hc].
    exact (place_orders_no_cancel _ c Hc). }
  exists submissions. split; [exact Hcalls|]. split; [exact Hmap|].
  split; [reflexivity|]. split; [|split; [|exact Hsub]].
  - intros o Ho. rewrite Hcalls, Hmap. apply in_or_app. left.
    apply in_map_iff. eauto.
  - intros connector_name pair order_id Hin.
    rewrite Hcalls in Hin. apply in_app_or in Hin. destruct Hin as [Hin | Hin].
    + rewrite Hmap in Hin. apply in_map_iff in Hin.
      destruct Hin as (o & E & Ho). injection E as <- <- <-. eauto.
    + exfalso. exact (Hsub _ Hin connector_name pair order_id eq_refl).
Qed.

Lemma tick_cancels_active_orders_of_pair_witness :
  exists submissions : list Call,
    calls (on_tick Examples.quoting init)
    = cancel_all_orders Examples.quoting ++ submissions
    /\ cancel_all_orders Examples.quoting
       = map (fun order => cancel exchange trading_pair
                             (LimitOrder.client_order_id order))
           (get_active_orders Examples.quoting exchange)
    /\ submissions
       = match create_proposal Examples.quoting with
         | Py.Ok proposal =>
             place_orders (adjust_proposal_to_budget Examples.quoting proposal)
         | Py.Raise _ => []
         end
    /\ (forall order, In order (get_active_orders Examples.quoting exchange) ->
        In (cancel exchange trading_pair (LimitOrder.client_order_id order))
           (calls (on_tick Examples.quoting init)))
    /\ (forall connector_name pair order_id,
        In (cancel connector_name pair order_id)
           (calls (on_tick Examples.quoting init)) ->
        connector_name = exchange /\ pair = trading_pair
        /\ exists order, In order (get_active_orders Examples.quoting exchange)
             /\ LimitOrder.client_order_id order = order_id)
    /\ (forall c, In c submissions ->
        forall connector_name pair order_id,
          c <> cancel connector_name pair order_id).
Proof.
  apply (tick_cancels_active_orders_of_pair Examples.quoting init).
  - reflexivity.
  - reflexivity.
  - intros order [<- | []]. reflexivity.
Defined.

End Tick.

(** * Further properties of the script *)

(** ** Binary64 rounding: the round bit *)

Section RoundBit.
Local Open Scope Z_scope.

Lemma shr_1_r (mrs : shr_record) :
  0 <= shr_m mrs -> shr_r (shr_1 mrs) = Z.testbit (shr_m mrs) 0.
Proof.
  destruct mrs as [m r s]; cbn [shr_m]; intros Hm.
  destruct m as [|[p|p|]|]; try reflexivity; lia.
Qed.

Lemma iter_shr_1_r (n : positive) : forall mrs,
  0 <= shr_m mrs ->
  shr_r (iter_pos shr_1 n mrs) = Z.testbit (shr_m mrs) (Zpos n - 1).
Proof.
  induction n as [n IH | n IH |]; intros mrs Hm; cbn [iter_pos].
  - assert (H1 : 0 <= shr_m (shr_1 mrs)) by (rewrite shr_1_m by trivial; apply Z.div_pos; lia).
    assert (H2 : 0 <= shr_m (iter_pos shr_1 n (shr_1 mrs))).
    { rewrite iter_shr_1_m by trivial. apply Z.div_pos; [trivial | apply Z.pow_pos_nonneg; lia]. }
    rewrite IH by trivial. rewrite iter_shr_1_m, shr_1_m by trivial.
    rewrite Z.div_pow2_bits by lia.
    change 2 with (2 ^ 1) at 1. rewrite Z.div_pow2_bits by lia.
    f_equal. lia.
  - assert (H2 : 0 <= shr_m (iter_pos shr_1 n mrs)).
    { rewrite iter_shr_1_m by trivial. apply Z.div_pos; [trivial | apply Z.pow_pos_nonneg; lia]. }
    rewrite IH by trivial. rewrite iter_shr_1_m by trivial.
    rewrite Z.div_pow2_bits by lia. f_equal. lia.
  - apply shr_1_r; trivial.
Qed.

Lemma round_nearest_even_down (mrs : shr_record) :
  shr_r mrs = false ->
  round_nearest_even (shr_m mrs) (loc_of_shr_record mrs) = shr_m mrs.
Proof. destruct mrs as [m [] []]; cbn; intros H; trivial; discriminate. Qed.

(** As [binary_round_aux_shift], with the result made exact when the round
    bit of the mantissa is clear. *)
Lemma binary_round_aux_shift_floor (s : bool) (M n : positive) (e : Z) :
  Zpos (digits2_pos M) = 53 + Zpos n ->
  -1074 <= e + Zpos n <= 971 ->
  Zpos M / 2 ^ Zpos n + 1 < 2 ^ 53 ->
  exists p : positive,
    binary_round_aux prec emax s (Zpos M) e loc_Exact = S754_finite s p (e + Zpos n)
    /\ Zpos M / 2 ^ Zpos n <= Zpos p <= Zpos M / 2 ^ Zpos n + 1
    /\ (Z.testbit (Zpos M) (Zpos n - 1) = false -> Zpos p = Zpos M / 2 ^ Zpos n).
Proof.
  intros Hd He Hq.
  pose proof (digits2_pos_bounds M) as [Blo _]. rewrite Hd in Blo.
  assert (Hpow : 0 < 2 ^ Zpos n) by (apply Z.pow_pos_nonneg; lia).
  assert (Hq52 : 2 ^ 52 <= Zpos M / 2 ^ Zpos n).
  { apply Z.div_le_lower_bound; trivial.
    replace (53 + Zpos n - 1) with (Zpos n + 52) in Blo by lia.
    rewrite Z.pow_add_r in Blo by lia. lia. }
  unfold binary_round_aux, shr_fexp at 1.
  cbn [Zdigits2]. rewrite Hd.
  assert (Hf : fexp prec emax (53 + Zpos n + e) - e = Zpos n).
  { unfold fexp, SpecFloat.emin, prec, emax. lia. }
  rewrite Hf. cbn [shr shr_record_of_loc].
  set (mrs := iter_pos shr_1 n _).
  assert (Hm : shr_m mrs = Zpos M / 2 ^ Zpos n).
  { unfold mrs. rewrite iter_shr_1_m; cbn [shr_m]; [reflexivity | lia]. }
  assert (Hrb : shr_r mrs = Z.testbit (Zpos M) (Zpos n - 1)).
  { unfold mrs. rewrite iter_shr_1_r; cbn [shr_m]; [reflexivity | lia]. }
  pose proof (round_nearest_even_bounds (shr_m mrs) (loc_of_shr_record mrs)) as Hr.
  pose proof (round_nearest_even_down mrs) as Hdown.
  destruct (round_nearest_even (shr_m mrs) (loc_of_shr_record mrs)) as [|p|p];
    rewrite Hm in Hr; try lia.
  assert (Hdp : Zpos (digits2_pos p) = 53).
  { apply digits2_pos_unique. change (53 - 1) with 52. lia. }
  unfold shr_fexp. cbn [Zdigits2]. rewrite Hdp.
  assert (Hf2 : fexp prec emax (53 + (e + Zpos n)) - (e + Zpos n) = 0).
  { unfold fexp, SpecFloat.emin, prec, emax. lia. }
  rewrite Hf2. cbn [shr shr_record_of_loc shr_m].
  assert (Hle : (e + Zpos n <=? emax - prec) = true).
  { apply Z.leb_le. unfold emax, prec. lia. }
  rewrite Hle. exists p. split; [reflexivity|]. split; [lia|].
  intros Hb. rewrite <- Hm. apply Hdown. now rewrite Hrb.
Qed.

Lemma binary_round_shift_floor (s : bool) (M n : positive) (e : Z) :
  2 ^ (52 + Zpos n) <= Zpos M -> Zpos M + 2 ^ Zpos n < 2 ^ (53 + Zpos n) ->
  -1074 <= e + Zpos n <= 971 ->
  exists p : positive,
    binary_round prec emax s M e = S754_finite s p (e + Zpos n)
    /\ Zpos M / 2 ^ Zpos n <= Zpos p <= Zpos M / 2 ^ Zpos n + 1
    /\ (Z.testbit (Zpos M) (Zpos n - 1) = false -> Zpos p = Zpos M / 2 ^ Zpos n).
Proof.
  intros Hlo Hhi He.
  assert (Hpow : 0 < 2 ^ Zpos n) by (apply Z.pow_pos_nonneg; lia).
  assert (Hd : Zpos (digits2_pos M) = 53 + Zpos n).
  { apply digits2_pos_unique. replace (53 + Zpos n - 1) with (52 + Zpos n) by lia. lia. }
  unfold binary_round. rewrite Hd.
  rewrite shl_align_ge by (unfold fexp, SpecFloat.emin, prec, emax; lia).
  apply binary_round_aux_shift_floor; trivial.
  rewrite Z.pow_add_r in Hhi by lia.
  change (2 ^ 53) with 9007199254740992 in *.
  assert (Zpos M / 2 ^ Zpos n < 9007199254740991); [|lia].
  apply Z.div_lt_upper_bound; trivial. lia.
Qed.

(** [1 + h] and [1 - h] for [h = m * 2^e] with [e = -52 - n], resp.
    [e = -53 - n]: the result mantissa against the shifted exact sum. *)
Lemma SFadd_one_floor (m n : positive) (e : Z) :
  -52 - e = Zpos n -> 8 <= Zpos n <= 11 -> 2 ^ 52 <= Zpos m < 2 ^ 53 ->
  exists p : positive,
    SFadd prec emax (S754_finite false 4503599627370496 (-52)) (S754_finite false m e)
    = S754_finite false p (-52)
    /\ (2 ^ 52 * 2 ^ Zpos n + Zpos m) / 2 ^ Zpos n <= Zpos p
       <= (2 ^ 52 * 2 ^ Zpos n + Zpos m) / 2 ^ Zpos n + 1
    /\ (Z.testbit (2 ^ 52 * 2 ^ Zpos n + Zpos m) (Zpos n - 1) = false ->
        Zpos p = (2 ^ 52 * 2 ^ Zpos n + Zpos m) / 2 ^ Zpos n).
Proof.
  intros En Hn Hm. unfold SFadd. rewrite Z.min_r by lia.
  cbn [cond_Zopp Z.add binary_normalize].
  pose proof (shl_align_fst 4503599627370496 (-52) e) as Ha.
  pose proof (shl_align_fst m e e) as Hb.
  rewrite Z.sub_diag, Z.pow_0_r in Hb. rewrite En in Ha.
  set (a := fst (shl_align 4503599627370496 (-52) e)) in *.
  set (b := fst (shl_align m e e)) in *.
  pose proof (pow2_range n 8 11) as HP.
  change (2 ^ 8) with 256 in HP. change (2 ^ 11) with 2048 in HP.
  change (2 ^ 52) with 4503599627370496 in *.
  change (2 ^ 53) with 9007199254740992 in *.
  assert (EM : Zpos (a + b) = 4503599627370496 * 2 ^ Zpos n + Zpos m)
    by (rewrite Pos2Z.inj_add; lia).
  destruct (binary_round_shift_floor false (a + b) n e) as (p & Hp & Hq & Hr).
  - rewrite EM, Z.pow_add_r by lia. change (2 ^ 52) with 4503599627370496. lia.
  - rewrite EM, Z.pow_add_r by lia. change (2 ^ 53) with 9007199254740992. lia.
  - lia.
  - replace (e + Zpos n) with (-52) in Hp by lia. rewrite EM in Hq, Hr.
    exists p. auto.
Qed.

Lemma SFsub_one_floor (m n : positive) (e : Z) :
  -53 - e = Zpos n -> 7 <= Zpos n <= 10 -> 2 ^ 52 <= Zpos m < 2 ^ 53 ->
  exists p : positive,
    SFsub prec emax (S754_finite false 4503599627370496 (-52)) (S754_finite false m e)
    = S754_finite false p (-53)
    /\ (2 ^ 53 * 2 ^ Zpos n - Zpos m) / 2 ^ Zpos n <= Zpos p
       <= (2 ^ 53 * 2 ^ Zpos n - Zpos m) / 2 ^ Zpos n + 1.
Proof.
  intros En Hn Hm. unfold SFsub. rewrite Z.min_r by lia.
  cbn [cond_Zopp].
  pose proof (shl_align_fst 4503599627370496 (-52) e) as Ha.
  pose proof (shl_align_fst m e e) as Hb.
  rewrite Z.sub_diag, Z.pow_0_r in Hb.
  replace (-52 - e) with (1 + Zpos n) in Ha by lia.
  rewrite Z.pow_add_r in Ha by lia. change (2 ^ 1) with 2 in Ha.
  set (a := fst (shl_align 4503599627370496 (-52) e)) in *.
  set (b := fst (shl_align m e e)) in *.
  pose proof (pow2_range n 7 10) as HP.
  change (2 ^ 7) with 128 in HP. change (2 ^ 10) with 1024 in HP.
  change (2 ^ 52) with 4503599627370496 in *.
  change (2 ^ 53) with 9007199254740992 in *.
  destruct (Z.sub (Zpos a) (Zpos b)) as [|k|k] eqn:Ek; try lia.
  cbn [binary_normalize].
  assert (EM : Zpos k = 9007199254740992 * 2 ^ Zpos n - Zpos m) by lia.
  destruct (binary_round_shift_floor false k n e) as (p & Hp & Hq & _).
  - rewrite EM, Z.pow_add_r by lia. change (2 ^ 52) with 4503599627370496. lia.
  - rewrite EM, Z.pow_add_r by lia. change (2 ^ 53) with 9007199254740992. lia.
  - lia.
  - replace (e + Zpos n) with (-53) in Hp by lia. rewrite EM in Hq.
    exists p. auto.
Qed.

End RoundBit.

(** ** The price factors stay between those of the spread bounds *)

Section FactorBand.
Import SmartMarketMaker.
Local Open Scope Z_scope.

Lemma SFleb_finite_same_exp (m1 m2 : positive) (e : Z) :
  SFleb (S754_finite false m1 e) (S754_finite false m2 e) = true ->
  Zpos m1 <= Zpos m2.
Proof.
  unfold SFleb. cbn [SFcompare]. rewrite Z.compare_refl.
  change (Pos.compare_cont Eq m1 m2) with (Pos.compare m1 m2).
  destruct (Pos.compare_spec m1 m2); try discriminate; lia.
Qed.

Lemma spread_range_mantissa (r : float) :
  (min_spread <=? r)%float = true -> (r <=? max_spread)%float = true ->
  exists (m : positive) (e : Z),
    Prim2SF r = S754_finite false m e
    /\ -63 <= e <= -60 /\ 2 ^ 52 <= Zpos m < 2 ^ 53
    /\ (e = -63 -> 4611686018427388 <= Zpos m)
    /\ (e = -60 -> Zpos m <= 5764607523034235).
Proof.
  intros Hlo Hhi.
  destruct (spread_range_finite r Hlo Hhi) as (m & e & Hr & He & Hm).
  exists m, e.
  split; [exact Hr|]. split; [exact He|]. split; [exact Hm|].
  rewrite FloatAxioms.leb_spec, Hr in Hlo, Hhi.
  change (Prim2SF min_spread) with (S754_finite false 4611686018427388 (-63)) in Hlo.
  change (Prim2SF max_spread) with (S754_finite false 5764607523034235 (-60)) in Hhi.
  split; intros ->.
  - exact (SFleb_finite_same_exp _ _ _ Hlo).
  - exact (SFleb_finite_same_exp _ _ _ Hhi).
Qed.
Lemma SFadd_one_band (m : positive) (e : Z) :
  -63 <= e <= -60 -> 2 ^ 52 <= Zpos m < 2 ^ 53 ->
  (e = -63 -> 4611686018427388 <= Zpos m) ->
  (e = -60 -> Zpos m <= 5764607523034235) ->
  exists p : positive,
    SFadd prec emax (S754_finite false 4503599627370496 (-52)) (S754_finite false m e)
    = S754_finite false p (-52)
    /\ 4505851427184181 <= Zpos p <= 4526117625507348.
Proof.
  intros He Hm Hlo Hhi.
  change (2 ^ 52) with 4503599627370496 in *.
  change (2 ^ 53) with 9007199254740992 in *.
  assert (Hc : e = -63 \/ e = -62 \/ e = -61 \/ e = -60) by lia.
  destruct Hc as [-> | [-> | [-> | ->]]].
  - destruct (SFadd_one_floor m 11 (-63)) as (p & Hp & Hq & _); try lia.
    exists p. split; [exact Hp|].
    change (2 ^ 52) with 4503599627370496 in Hq. change (2 ^ 11) with 2048 in Hq.
    specialize (Hlo eq_refl). revert Hq. Z.div_mod_to_equations. lia.
  - destruct (SFadd_one_floor m 10 (-62)) as (p & Hp & Hq & _); try lia.
    exists p. split; [exact Hp|].
    change (2 ^ 52) with 4503599627370496 in Hq. change (2 ^ 10) with 1024 in Hq.
    revert Hq. Z.div_mod_to_equations. lia.
  - destruct (SFadd_one_floor m 9 (-61)) as (p & Hp & Hq & _); try lia.
    exists p. split; [exact Hp|].
    change (2 ^ 52) with 4503599627370496 in Hq. change (2 ^ 9) with 512 in Hq.
    revert Hq. Z.div_mod_to_equations. lia.
  - destruct (SFadd_one_floor m 8 (-60)) as (p & Hp & Hq & Hr); try lia.
    exists p. split; [exact Hp|].
    change (2 ^ 52) with 4503599627370496 in Hq, Hr. change (2 ^ 8) with 256 in Hq, Hr.
    change (8 - 1) with 7 in Hr.
    specialize (Hhi eq_refl).
    destruct (Z.testbit (4503599627370496 * 256 + Zpos m) 7) eqn:Eb.
    + apply Z.testbit_true in Eb; [|lia]. change (2 ^ 7) with 128 in Eb.
      revert Hq Eb. Z.div_mod_to_equations. lia.
    + specialize (Hr eq_refl). revert Hq Hr. Z.div_mod_to_equations. lia.
Qed.

Lemma SFsub_one_band (m : positive) (e : Z) :
  -63 <= e <= -60 -> 2 ^ 52 <= Zpos m < 2 ^ 53 ->
  (e = -63 -> 4611686018427388 <= Zpos m) ->
  (e = -60 -> Zpos m <= 5764607523034235) ->
  exists p : positive,
    SFsub prec emax (S754_finite false 4503599627370496 (-52)) (S754_finite false m e)
    = S754_finite false p (-53)
    /\ 8962163258467287 <= Zpos p <= 9002695655113622.
Proof.
  intros He Hm Hlo Hhi.
  change (2 ^ 52) with 4503599627370496 in *.
  change (2 ^ 53) with 9007199254740992 in *.
  assert (Hc : e = -63 \/ e = -62 \/ e = -61 \/ e = -60) by lia.
  destruct Hc as [-> | [-> | [-> | ->]]].
  - destruct (SFsub_one_floor m 10 (-63)) as (p & Hp & Hq); try lia.
    exists p. split; [exact Hp|].
    change (2 ^ 53) with 9007199254740992 in Hq. change (2 ^ 10) with 1024 in Hq.
    specialize (Hlo eq_refl). revert Hq. Z.div_mod_to_equations. lia.
  - destruct (SFsub_one_floor m 9 (-62)) as (p & Hp & Hq); try lia.
    exists p. split; [exact Hp|].
    change (2 ^ 53) with 9007199254740992 in Hq. change (2 ^ 9) with 512 in Hq.
    revert Hq. Z.div_mod_to_equations. lia.
  - destruct (SFsub_one_floor m 8 (-61)) as (p & Hp & Hq); try lia.
    exists p. split; [exact Hp|].
    change (2 ^ 53) with 9007199254740992 in Hq. change (2 ^ 8) with 256 in Hq.
    revert Hq. Z.div_mod_to_equations. lia.
  - destruct (SFsub_one_floor m 7 (-60)) as (p & Hp & Hq); try lia.
    exists p. split; [exact Hp|].
    change (2 ^ 53) with 9007199254740992 in Hq. change (2 ^ 7) with 128 in Hq.
    specialize (Hhi eq_refl). revert Hq. Z.div_mod_to_equations. lia.
Qed.

End FactorBand.

(** ** The spread on every volatility *)

Section SpreadEverywhere.
Import hummingbot SmartMarketMaker.

Lemma binary_normalize_not_nan (z e : Z) (szero : bool) :
  binary_normalize prec emax z e szero <> S754_nan.
Proof.
  destruct z as [|m|m]; cbn [binary_normalize]; [discriminate| |];
    unfold binary_round; destruct (shl_align _ _ _) as [mz ez];
    match goal with
    | |- binary_round_aux _ _ ?s _ _ _ <> _ =>
        pose proof (binary_round_aux_signed s (Zpos mz) ez loc_Exact
                      (Pos2Z.is_nonneg mz)) as H;
        destruct (binary_round_aux prec emax s (Zpos mz) ez loc_Exact);
        cbn [SF_signed] in H; [discriminate | discriminate | tauto | discriminate]
    end.
Qed.

Lemma SFadd_finite_not_nan (sx sy : bool) (mx my : positive) (ex ey : Z) :
  SFadd prec emax (S754_finite sx mx ex) (S754_finite sy my ey) <> S754_nan.
Proof. cbn [SFadd]. apply binary_normalize_not_nan. Qed.

Lemma is_nan_half (v : float) : is_nan (v * 0.5)%float = is_nan v.
Proof.
  destruct (is_nan v) eqn:E.
  - apply is_nan_spec in E. subst v. reflexivity.
  - apply is_nan_false in E. apply is_nan_false. rewrite mul_spec.
    change (Prim2SF 0.5) with (S754_finite false 4503599627370496 (-53)).
    unfold SF64mul. destruct (Prim2SF v) as [s|s| |s m e]; try (cbn; discriminate).
    + now elim E.
    + pose proof (SFmul_finite_signed s false m 4503599627370496 e (-53)) as H.
      destruct (SFmul prec emax _ _); cbn [SF_signed] in H; try discriminate; tauto.
Qed.

Lemma is_nan_add_base (y : float) : is_nan (base_spread + y)%float = is_nan y.
Proof.
  destruct (is_nan y) eqn:E.
  - apply is_nan_spec in E. subst y. reflexivity.
  - apply is_nan_false in E. apply is_nan_false. rewrite add_spec.
    change (Prim2SF base_spread) with (S754_finite false 4611686018427388 (-62)).
    unfold SF64add. destruct (Prim2SF y) as [s|s| |s m e]; try (cbn; discriminate).
    + now elim E.
    + apply SFadd_finite_not_nan.
Qed.

Lemma spread_arg_is_nan (v : float) :
  is_nan (base_spread + v * 0.5)%float = is_nan v.
Proof. rewrite is_nan_add_base. apply is_nan_half. Qed.

Lemma dynamic_spread_bounded (v : float) :
  is_nan v = false ->
  (min_spread <=? dynamic_spread v)%float = true
  /\ (dynamic_spread v <=? max_spread)%float = true.
Proof.
  intros E. apply clamp_range. now rewrite spread_arg_is_nan.
Qed.

(** X1: the clamp bounds every volatility that is not NaN, negative and
    infinite ones included, and lets NaN through: [dynamic_spread v] is NaN
    exactly when [v] is, and lies in [[min_spread, max_spread]] otherwise. *)
Theorem dynamic_spread_nan_or_bounded (v : float) :
  is_nan (dynamic_spread v) = is_nan v
  /\ (is_nan v = false ->
      (min_spread <=? dynamic_spread v)%float = true
      /\ (dynamic_spread v <=? max_spread)%float = true).
Proof.
  split; [|apply dynamic_spread_bounded].
  destruct (is_nan v) eqn:E.
  - pose proof (spread_arg_is_nan v) as Hx. rewrite E in Hx.
    apply is_nan_spec in Hx. unfold dynamic_spread. rewrite Hx. reflexivity.
  - destruct (dynamic_spread_bounded v E) as [_ Hhi].
    exact (leb_not_nan_l _ _ Hhi).
Qed.

Lemma dynamic_spread_nan_or_bounded_witness :
  is_nan (dynamic_spread neg_infinity) = is_nan neg_infinity
  /\ (is_nan neg_infinity = false ->
      (min_spread <=? dynamic_spread neg_infinity)%float = true
      /\ (dynamic_spread neg_infinity <=? max_spread)%float = true).
Proof. exact (dynamic_spread_nan_or_bounded neg_infinity). Defined.

End SpreadEverywhere.

(** ** What [create_proposal] returns and raises *)

Section ProposalOutcomes.
Import hummingbot SmartMarketMaker.

Lemma create_proposal_empty_frame (self : Env) :
  get_candles_with_indicators self = [] ->
  create_proposal self = Py.Raise Py.IndexError.
Proof.
  intros H. unfold create_proposal.
  change (Py.unpack2 (Py.split "-" trading_pair)) with (Py.Ok ("ETH", "USDT")%string).
  cbn [Py.bind]. rewrite H. reflexivity.
Qed.

(** X3: on a due, ready tick with an empty candle frame the active orders
    are cancelled, then [create_proposal] raises [IndexError]: nothing is
    submitted and [create_timestamp] is not advanced, so the next tick is
    due again. *)
Theorem empty_frame_tick (self : Env) (st : t) :
  (create_timestamp st <=? current_timestamp self)%float = true ->
  ready_to_trade self = true ->
  get_candles_with_indicators self = [] ->
  on_tick self st
  = {| calls := cancel_all_orders self; after := st;
       raised := Some Py.IndexError |}.
Proof.
  intros Hdue Hready Hframe.
  rewrite (on_tick_due self st Hdue Hready), (create_proposal_empty_frame self Hframe).
  reflexivity.
Qed.

Lemma empty_frame_tick_witness :
  let self := Examples.env (Examples.funded 2000 1 2000) 100 true
                [Examples.eth_order] [] in
  on_tick self init
  = {| calls := cancel_all_orders self; after := init;
       raised := Some Py.IndexError |}.
Proof.
  intros self. apply (empty_frame_tick self init); reflexivity.
Defined.

(** X4: a NaN volatility is not filtered out.  When the latest volatility
    is NaN and the trend filter does not fire, the proposal is the BUY/SELL
    pair with both prices [Decimal('NaN')]. *)
Theorem nan_volatility_quotes_nan_prices (self : Env) (latest : Row) :
  Py.last_item (get_candles_with_indicators self) = Py.Ok latest ->
  is_nan (volatility latest) = true ->
  trend_too_strong (RSI_14 latest) = false ->
  exists amt : decimal.Decimal,
    create_proposal self
    = Py.Ok [OrderCandidate.Build trading_pair true LIMIT BUY amt decimal.NaN;
             OrderCandidate.Build trading_pair true LIMIT SELL amt decimal.NaN].
Proof.
  intros Hl Hnan Htrend.
  destruct (create_proposal_ok self latest Hl) as (bp & sp & amt & Hb & Hs & _ & E).
  apply is_nan_spec in Hnan. rewrite Hnan in Hb, Hs.
  change (dynamic_spread nan) with nan in Hb, Hs.
  change (decimal.from_float (1 - nan)) with decimal.NaN in Hb.
  change (decimal.from_float (1 + nan)) with decimal.NaN in Hs.
  cbn [decimal.mul] in Hb, Hs. injection Hb as <-. injection Hs as <-.
  rewrite Htrend in E. eauto.
Qed.

Lemma nan_volatility_quotes_nan_prices_witness :
  exists amt : decimal.Decimal,
    create_proposal
      (Examples.env (Examples.funded 2000 1 2000) 100 true [] [Examples.row 50 nan])
    = Py.Ok [OrderCandidate.Build trading_pair true LIMIT BUY amt decimal.NaN;
             OrderCandidate.Build trading_pair true LIMIT SELL amt decimal.NaN].
Proof.
  apply (nan_volatility_quotes_nan_prices
           (Examples.env (Examples.funded 2000 1 2000) 100 true [] [Examples.row 50 nan])
           (Examples.row 50 nan)); reflexivity.
Defined.

End ProposalOutcomes.

(** ** Price band *)

Section PriceBand.
Import hummingbot SmartMarketMaker.

Lemma factor_band (r : float) :
  (min_spread <=? r)%float = true -> (r <=? max_spread)%float = true ->
  exists f1 f2 : Q,
    decimal.from_float (1 - r)%float = decimal.Finite f1
    /\ decimal.from_float (1 + r)%float = decimal.Finite f2
    /\ (8962163258467287 # 9007199254740992 <= f1)%Q
    /\ (f1 <= 9002695655113622 # 9007199254740992)%Q
    /\ (4505851427184181 # 4503599627370496 <= f2)%Q
    /\ (f2 <= 4526117625507348 # 4503599627370496)%Q.
Proof.
  intros Hlo Hhi.
  destruct (spread_range_mantissa r Hlo Hhi) as (m & e & Hr & He & Hm & Hml & Hmh).
  destruct (SFsub_one_band m e He Hm Hml Hmh) as (p1 & H1 & B1).
  destruct (SFadd_one_band m e He Hm Hml Hmh) as (p2 & H2 & B2).
  assert (E1 : Prim2SF (1 - r)%float = S754_finite false p1 (-53)).
  { rewrite sub_spec, Hr.
    change (Prim2SF 1) with (S754_finite false 4503599627370496 (-52)). exact H1. }
  assert (E2 : Prim2SF (1 + r)%float = S754_finite false p2 (-52)).
  { rewrite add_spec, Hr.
    change (Prim2SF 1) with (S754_finite false 4503599627370496 (-52)). exact H2. }
  exists (decimal.SF2Q false p1 (-53)), (decimal.SF2Q false p2 (-52)).
  rewrite (from_float_finite _ _ _ _ E1), (from_float_finite _ _ _ _ E2).
  split; [reflexivity|]. split; [reflexivity|].
  unfold decimal.SF2Q, Qle; cbn [Qnum Qden].
  change (Zpos (2 ^ 53)) with 9007199254740992%Z.
  change (Zpos (2 ^ 52)) with 4503599627370496%Z.
  lia.
Qed.

(** The band's ends are the factors of the two spread bounds. *)
Lemma factor_band_ends :
  decimal.from_float (1 - max_spread)%float
  = decimal.Finite (8962163258467287 # 9007199254740992)
  /\ decimal.from_float (1 - min_spread)%float
     = decimal.Finite (9002695655113622 # 9007199254740992)
  /\ decimal.from_float (1 + min_spread)%float
     = decimal.Finite (4505851427184181 # 4503599627370496)
  /\ decimal.from_float (1 + max_spread)%float
     = decimal.Finite (4526117625507348 # 4503599627370496).
Proof. repeat split; reflexivity. Qed.

End PriceBand.

(** ** Bid and ask *)

Section BidAsk.
Import hummingbot SmartMarketMaker.

Lemma rounded_bid_below (p f1 : Q) :
  (0 < p)%Q -> (0 < f1)%Q -> (f1 <= 9002695655113622 # 9007199254740992)%Q ->
  (decimal.round (p * f1) < p)%Q.
Proof.
  intros Hp H0 H1.
  assert (Hx : (0 < p * f1)%Q) by (apply Qmult_lt_0_compat; trivial).
  destruct (round_error (p * f1) Hx) as [_ Hhi].
  eapply Qle_lt_trans; [exact Hhi|].
  rewrite <- Qmult_assoc. rewrite <- (Qmult_1_r p) at 2.
  apply Qmult_lt_l; [exact Hp|].
  eapply Qle_lt_trans.
  - apply Qmult_le_compat_r; [exact H1 | discriminate].
  - reflexivity.
Qed.

Lemma rounded_ask_above (p f2 : Q) :
  (0 < p)%Q -> (4505851427184181 # 4503599627370496 <= f2)%Q ->
  (p < decimal.round (p * f2))%Q.
Proof.
  intros Hp H2.
  assert (H0 : (0 < f2)%Q) by (eapply Qlt_le_trans; [|exact H2]; reflexivity).
  assert (Hx : (0 < p * f2)%Q) by (apply Qmult_lt_0_compat; trivial).
  destruct (round_error (p * f2) Hx) as [Hlo _].
  eapply Qlt_le_trans; [|exact Hlo].
  rewrite <- Qmult_assoc. rewrite <- (Qmult_1_r p) at 1.
  apply Qmult_lt_l; [exact Hp|].
  eapply Qlt_le_trans.
  - instantiate (1 := ((4505851427184181 # 4503599627370496)
                       * (999999999999999999999999999 # 1000000000000000000000000000))%Q).
    reflexivity.
  - apply Qmult_le_compat_r; [exact H2 | discriminate].
Qed.

(** The ratio of two rounded products against the ratio of the factors. *)
Lemma rounded_ratio (p f1 f2 : Q) :
  (0 < p)%Q -> (0 < f1)%Q -> (0 < f2)%Q ->
  (decimal.round (p * f2) / decimal.round (p * f1)
   <= f2 / f1 * (1000000000000000000000000001 # 999999999999999999999999999))%Q
  /\ (f2 / f1 * (999999999999999999999999999 # 1000000000000000000000000001)
      <= decimal.round (p * f2) / decimal.round (p * f1))%Q.
Proof.
  intros Hp H1 H2.
  assert (Hx1 : (0 < p * f1)%Q) by (apply Qmult_lt_0_compat; trivial).
  assert (Hx2 : (0 < p * f2)%Q) by (apply Qmult_lt_0_compat; trivial).
  destruct (round_error (p * f1) Hx1) as [L1 U1].
  destruct (round_error (p * f2) Hx2) as [L2 U2].
  pose proof (round_positive (p * f1) Hx1) as Hb.
  assert (Hf1 : ~ (f1 == 0)%Q) by (intros E; rewrite E in H1; discriminate).
  assert (Hr : (0 < f2 / f1)%Q).
  { apply Qlt_shift_div_l; [exact H1|]. now rewrite Qmult_0_l. }
  split.
  - apply Qle_shift_div_r; [exact Hb|].
    eapply Qle_trans; [exact U2|].
    eapply Qle_trans.
    + instantiate (1 := (f2 / f1 * (1000000000000000000000000001 # 999999999999999999999999999)
                         * (p * f1 * (999999999999999999999999999 # 1000000000000000000000000000)))%Q).
      apply Qle_lteq. right. field. exact Hf1.
    + apply Qmult_le_l; [|exact L1].
      apply Qmult_lt_0_compat; [exact Hr | reflexivity].
  - apply Qle_shift_div_l; [exact Hb|].
    eapply Qle_trans; [|exact L2].
    eapply Qle_trans.
    + apply Qmult_le_l; [|exact U1].
      apply Qmult_lt_0_compat; [exact Hr | reflexivity].
    + apply Qle_lteq. right. field. exact Hf1.
Qed.

(** C4, as stated, fails: the script's prices are [Decimal] products, which
    the context rounds to 28 significant digits.  At reference price 2000
    and half-spread 0.002 the bid is 1995.999999999999996447286321 and the
    ask 2004.000000000000003552713679, and their ratio is not
    [(1 + h) / (1 - h)], whether [1 - h] and [1 + h] are read as the
    binary64 factors the script multiplies by or as exact numbers. *)
Lemma exact_ratio_counterexample :
  ~ (forall (self : Env) (latest : Row) (hq f1 f2 : Q)
            (proposal : list OrderCandidate.t),
       Py.last_item (get_candles_with_indicators self) = Py.Ok latest ->
       let p := ConnectorBase.get_price_by_type (connectors self exchange)
                  trading_pair price_source in
       let h := dynamic_spread (volatility latest) in
       (0 < p)%Q -> (0 <? h)%float = true -> (h <? 1)%float = true ->
       decimal.from_float h = decimal.Finite hq ->
       decimal.from_float (1 - h)%float = decimal.Finite f1 ->
       decimal.from_float (1 + h)%float = decimal.Finite f2 ->
       create_proposal self = Py.Ok proposal -> proposal <> [] ->
       exists (bid ask : Q) (amt : decimal.Decimal),
         proposal
         = [OrderCandidate.Build trading_pair true LIMIT BUY amt (decimal.Finite bid);
            OrderCandidate.Build trading_pair true LIMIT SELL amt (decimal.Finite ask)]
         /\ ((bid == p * f1)%Q \/ (bid == p * (1 - hq))%Q)
         /\ ((ask == p * f2)%Q \/ (ask == p * (1 + hq))%Q)
         /\ (bid < p)%Q /\ (p < ask)%Q
         /\ ((ask / bid == f2 / f1)%Q \/ (ask / bid == (1 + hq) / (1 - hq))%Q)).
Proof.
  intros H.
  destruct (create_proposal Examples.quoting) as [proposal|e] eqn:E;
    [|vm_compute in E; discriminate E].
  specialize (H Examples.quoting (Examples.row 50 0.002)
                (4611686018427388 # 2305843009213693952)
                (8989184856231510 # 9007199254740992)
                (4512606826625237 # 4503599627370496) proposal eq_refl).
  cbv zeta in H.
  specialize (H eq_refl eq_refl eq_refl eq_refl eq_refl eq_refl E).
  vm_compute in E. injection E as <-.
  destruct H as (bid & ask & amt & Hp & _ & _ & _ & _ & Hratio); [discriminate|].
  injection Hp as _ <- _ <-.
  destruct Hratio as [Hratio | Hratio]; vm_compute in Hratio; discriminate Hratio.
Qed.

(** C4 (amended): [create_proposal] returns either no intent or exactly
    two, a BUY at [p * Decimal(1 - h)] followed by a SELL at
    [p * Decimal(1 + h)], where [p] is the reference price, [h] the
    half-spread and each product is rounded by the context to 28
    significant digits.  For an ordinary [p > 0] and [h] in (0, 1) the bid
    is below [p], the ask above it, and [ask / bid] is [(1 + h) / (1 - h)]
    up to that rounding: within a factor [(10^27 + 1) / (10^27 - 1)]. *)
Theorem proposal_is_bid_ask_pair (self : Env) (latest : Row) :
  Py.last_item (get_candles_with_indicators self) = Py.Ok latest ->
  let p := ConnectorBase.get_price_by_type (connectors self exchange)
             trading_pair price_source in
  let h := dynamic_spread (volatility latest) in
  exists (bid ask amt : decimal.Decimal),
    decimal.mul (decimal.Finite p) (decimal.from_float (1 - h)%float) = Py.Ok bid
    /\ decimal.mul (decimal.Finite p) (decimal.from_float (1 + h)%float) = Py.Ok ask
    /\ (create_proposal self = Py.Ok []
        \/ create_proposal self
           = Py.Ok [OrderCandidate.Build trading_pair true LIMIT BUY amt bid;
                    OrderCandidate.Build trading_pair true LIMIT SELL amt ask])
    /\ (decimal.ordinary p -> (0 <? h)%float = true -> (h <? 1)%float = true ->
        exists f1 f2 : Q,
          decimal.from_float (1 - h)%float = decimal.Finite f1
          /\ decimal.from_float (1 + h)%float = decimal.Finite f2
          /\ bid = decimal.Finite (decimal.round (p * f1))
          /\ ask = decimal.Finite (decimal.round (p * f2))
          /\ (decimal.round (p * f1) < p)%Q /\ (p < decimal.round (p * f2))%Q
          /\ (decimal.round (p * f2) / decimal.round (p * f1)
              <= f2 / f1 * (1000000000000000000000000001 # 999999999999999999999999999))%Q
          /\ (f2 / f1 * (999999999999999999999999999 # 1000000000000000000000000001)
              <= decimal.round (p * f2) / decimal.round (p * f1))%Q).
Proof.
  intros Hlatest p h.
  destruct (create_proposal_ok self latest Hlatest)
    as (bid & ask & amt & Hbid & Hask & _ & H).
  fold p in Hbid, Hask. fold h in Hbid, Hask.
  exists bid, ask, amt. split; [exact Hbid|]. split; [exact Hask|]. split.
  - rewrite H. destruct (trend_too_strong (RSI_14 latest)); auto.
  - intros [Hplo _] H0 H1.
    assert (Hp : (0 < p)%Q) by (eapply Qlt_le_trans; [|exact Hplo]; reflexivity).
    destruct (dynamic_spread_cases (volatility latest)) as [Hn | [Hlo Hhi]];
      fold h in Hn || fold h in Hlo, Hhi.
    + rewrite Hn in H0. discriminate H0.
    + destruct (factor_band h Hlo Hhi) as (f1 & f2 & E1 & E2 & B1 & B2 & B3 & B4).
      exists f1, f2. rewrite E1 in Hbid. rewrite E2 in Hask.
      cbn [decimal.mul] in Hbid, Hask.
      injection Hbid as <-. injection Hask as <-.
      assert (P1 : (0 < f1)%Q) by (eapply Qlt_le_trans; [|exact B1]; reflexivity).
      assert (P2 : (0 < f2)%Q) by (eapply Qlt_le_trans; [|exact B3]; reflexivity).
      destruct (rounded_ratio p f1 f2 Hp P1 P2) as [R1 R2].
      repeat split; trivial.
      * now apply rounded_bid_below.
      * now apply rounded_ask_above.
Qed.

Lemma ordinary_2000 : decimal.ordinary 2000.
Proof. split; vm_compute; discriminate. Qed.

Lemma proposal_is_bid_ask_pair_witness :
  exists (bid ask amt : decimal.Decimal),
    decimal.mul (decimal.Finite 2000) (decimal.from_float (1 - 0.002)%float) = Py.Ok bid
    /\ decimal.mul (decimal.Finite 2000) (decimal.from_float (1 + 0.002)%float) = Py.Ok ask
    /\ create_proposal Examples.quoting
       = Py.Ok [OrderCandidate.Build trading_pair true LIMIT BUY amt bid;
                OrderCandidate.Build trading_pair true LIMIT SELL amt ask]
    /\ exists f1 f2 : Q,
         decimal.from_float (1 - 0.002)%float = decimal.Finite f1
         /\ decimal.from_float (1 + 0.002)%float = decimal.Finite f2
         /\ bid = decimal.Finite (decimal.round (2000 * f1))
         /\ ask = decimal.Finite (decimal.round (2000 * f2))
         /\ (decimal.round (2000 * f1) < 2000)%Q /\ (2000 < decimal.round (2000 * f2))%Q
         /\ (decimal.round (2000 * f2) / decimal.round (2000 * f1)
             <= f2 / f1 * (1000000000000000000000000001 # 999999999999999999999999999))%Q
         /\ (f2 / f1 * (999999999999999999999999999 # 1000000000000000000000000001)
             <= decimal.round (2000 * f2) / decimal.round (2000 * f1))%Q.
Proof.
  destruct (proposal_is_bid_ask_pair Examples.quoting (Examples.row 50 0.002) eq_refl)
    as (bid & ask & amt & Hbid & Hask & Hpair & Hprices).
  exists bid, ask, amt. split; [exact Hbid|]. split; [exact Hask|]. split.
  - destruct Hpair as [Hnone | Hpair]; [|exact Hpair].
    vm_compute in Hnone. discriminate Hnone.
  - apply Hprices; [exact ordinary_2000 | reflexivity | reflexivity].
Defined.

End BidAsk.

(** ** The band the quotes stay in *)

Section QuoteBand.
Import hummingbot SmartMarketMaker.

(** A rounded product [p * f], for a factor between [lo] and [hi]. *)
Lemma rounded_product_band (p f lo hi a b : Q) :
  (0 < p)%Q -> (0 < lo)%Q -> (lo <= f)%Q -> (f <= hi)%Q ->
  (a < lo * (999999999999999999999999999 # 1000000000000000000000000000))%Q ->
  (hi * (1000000000000000000000000001 # 1000000000000000000000000000) < b)%Q ->
  (a * p < decimal.round (p * f))%Q /\ (decimal.round (p * f) < b * p)%Q.
Proof.
  intros Hp Hlo Hf1 Hf2 Ha Hb.
  assert (Hf : (0 < f)%Q) by (eapply Qlt_le_trans; eassumption).
  assert (Hx : (0 < p * f)%Q) by (apply Qmult_lt_0_compat; trivial).
  destruct (round_error (p * f) Hx) as [L U].
  split.
  - eapply Qlt_le_trans; [|exact L].
    rewrite <- Qmult_assoc, (Qmult_comm a p).
    apply Qmult_lt_l; [exact Hp|].
    eapply Qlt_le_trans; [exact Ha|].
    apply Qmult_le_compat_r; [exact Hf1 | discriminate].
  - eapply Qle_lt_trans; [exact U|].
    rewrite <- Qmult_assoc, (Qmult_comm b p).
    apply Qmult_lt_l; [exact Hp|].
    eapply Qle_lt_trans; [|exact Hb].
    apply Qmult_le_compat_r; [exact Hf2 | discriminate].
Qed.

(** X5: for an ordinary reference price [p] and a volatility that is not
    NaN, the proposal is empty or the BUY/SELL pair whose bid lies between
    [0.994999 * p] and [0.999501 * p] and whose ask lies between
    [1.000499 * p] and [1.005001 * p]: each quote is between
    [min_spread] and [max_spread] away from [p] on its own side, up to the
    rounding of the binary64 factor and of the [Decimal] product. *)
Theorem quotes_within_spread_bounds (self : Env) (latest : Row) :
  Py.last_item (get_candles_with_indicators self) = Py.Ok latest ->
  is_nan (volatility latest) = false ->
  let p := ConnectorBase.get_price_by_type (connectors self exchange)
             trading_pair price_source in
  let h := dynamic_spread (volatility latest) in
  decimal.ordinary p ->
  exists (bid ask : Q) (amt : decimal.Decimal),
    decimal.mul (decimal.Finite p) (decimal.from_float (1 - h)%float)
    = Py.Ok (decimal.Finite bid)
    /\ decimal.mul (decimal.Finite p) (decimal.from_float (1 + h)%float)
       = Py.Ok (decimal.Finite ask)
    /\ create_proposal self
       = Py.Ok (if trend_too_strong (RSI_14 latest) then []
                else [OrderCandidate.Build trading_pair true LIMIT BUY amt
                        (decimal.Finite bid);
                      OrderCandidate.Build trading_pair true LIMIT SELL amt
                        (decimal.Finite ask)])
    /\ ((994999 # 1000000) * p < bid)%Q /\ (bid < (999501 # 1000000) * p)%Q
    /\ ((1000499 # 1000000) * p < ask)%Q /\ (ask < (1005001 # 1000000) * p)%Q.
Proof.
  intros Hl Hnan p h [Hplo _].
  assert (Hp : (0 < p)%Q) by (eapply Qlt_le_trans; [|exact Hplo]; reflexivity).
  destruct (dynamic_spread_bounded (volatility latest) Hnan) as [Hlo Hhi].
  fold h in Hlo, Hhi.
  destruct (factor_band h Hlo Hhi) as (f1 & f2 & E1 & E2 & B1 & B2 & B3 & B4).
  destruct (create_proposal_ok self latest Hl)
    as (bid & ask & amt & Hbid & Hask & _ & H).
  fold p in Hbid, Hask. fold h in Hbid, Hask.
  rewrite E1 in Hbid. rewrite E2 in Hask. cbn [decimal.mul] in Hbid, Hask.
  injection Hbid as <-. injection Hask as <-.
  exists (decimal.round (p * f1)), (decimal.round (p * f2)), amt.
  rewrite E1, E2. cbn [decimal.mul].
  split; [reflexivity|]. split; [reflexivity|]. split; [exact H|].
  assert (R1 : ((994999 # 1000000) * p < decimal.round (p * f1))%Q
               /\ (decimal.round (p * f1) < (999501 # 1000000) * p)%Q).
  { eapply rounded_product_band; [exact Hp | | exact B1 | exact B2 | |];
      reflexivity. }
  assert (R2 : ((1000499 # 1000000) * p < decimal.round (p * f2))%Q
               /\ (decimal.round (p * f2) < (1005001 # 1000000) * p)%Q).
  { eapply rounded_product_band; [exact Hp | | exact B3 | exact B4 | |];
      reflexivity. }
  tauto.
Qed.

Lemma quotes_within_spread_bounds_witness :
  exists (bid ask : Q) (amt : decimal.Decimal),
    decimal.mul (decimal.Finite 2000) (decimal.from_float (1 - dynamic_spread 0.002)%float)
    = Py.Ok (decimal.Finite bid)
    /\ decimal.mul (decimal.Finite 2000) (decimal.from_float (1 + dynamic_spread 0.002)%float)
       = Py.Ok (decimal.Finite ask)
    /\ create_proposal Examples.quoting
       = Py.Ok (if trend_too_strong 50 then []
                else [OrderCandidate.Build trading_pair true LIMIT BUY amt
                        (decimal.Finite bid);
                      OrderCandidate.Build trading_pair true LIMIT SELL amt
                        (decimal.Finite ask)])
    /\ ((994999 # 1000000) * 2000 < bid)%Q /\ (bid < (999501 # 1000000) * 2000)%Q
    /\ ((1000499 # 1000000) * 2000 < ask)%Q /\ (ask < (1005001 # 1000000) * 2000)%Q.
Proof.
  apply (quotes_within_spread_bounds Examples.quoting (Examples.row 50 0.002)).
  - reflexivity.
  - reflexivity.
  - split; vm_compute; discriminate.
Defined.

End QuoteBand.

(** ** The sizing rule as the script evaluates it *)

Section SizingRule.
Import hummingbot SmartMarketMaker.

Lemma full_is_not_half :
  decimal.mul (decimal.from_float base_order_amount) (decimal.from_float 0.5)
  <> Py.Ok (decimal.from_float base_order_amount).
Proof. vm_compute. discriminate. Qed.

Lemma order_amount_by_skew (ratio : decimal.number) (b : bool) :
  too_skewed ratio = Py.Ok b ->
  order_amount ratio
  = if b
    then decimal.mul (decimal.from_float base_order_amount) (decimal.from_float 0.5)
    else Py.Ok (decimal.from_float base_order_amount).
Proof. intros H. unfold order_amount. rewrite H. now destruct b. Qed.

(** The amount in terms of what the script computes: the value of the base
    balance, the total value and their ratio, each a [Decimal] result
    rounded by the context. *)
Lemma order_amount_halved_iff (base_balance quote_balance ref_price : Q) :
  let value := decimal.round (base_balance * ref_price) in
  let total_value := decimal.round (quote_balance + value) in
  let ratio := decimal.round (value / total_value) in
  let amount := order_amount (inventory_ratio base_balance quote_balance ref_price) in
  (amount = decimal.mul (decimal.from_float base_order_amount) (decimal.from_float 0.5)
   <-> (0 < total_value)%Q
       /\ ((7205759403792794 # 9007199254740992 < ratio)%Q
           \/ (ratio < 7205759403792794 # 36028797018963968)%Q))
  /\ (amount <> decimal.mul (decimal.from_float base_order_amount) (decimal.from_float 0.5)
      -> amount = Py.Ok (decimal.from_float base_order_amount)).
Proof.
  intros value total_value ratio amount.
  unfold amount, inventory_ratio. fold value. fold total_value. fold ratio.
  destruct (decimal.Qlt_bool 0 total_value) eqn:Et.
  - apply Qlt_bool_iff in Et.
    rewrite (order_amount_by_skew _ _ (too_skewed_Dec ratio)).
    destruct (decimal.Qlt_bool (7205759403792794 # 9007199254740992) ratio) eqn:E1;
      [|destruct (decimal.Qlt_bool ratio (7205759403792794 # 36028797018963968)) eqn:E2];
      cbn [orb].
    + apply Qlt_bool_iff in E1. split; [tauto|]. intros H. now elim H.
    + apply Qlt_bool_iff in E2. split; [tauto|]. intros H. now elim H.
    + split; [|reflexivity]. split.
      * intros H. symmetry in H. now apply full_is_not_half in H.
      * intros [_ [H | H]]; apply Qlt_bool_iff in H; congruence.
  - rewrite (order_amount_by_skew _ _ too_skewed_neutral).
    split; [|reflexivity]. split.
    + intros H. symmetry in H. now apply full_is_not_half in H.
    + intros [H _]. apply Qlt_bool_iff in H. congruence.
Qed.

(** A non-negative value and its rounding. *)
Lemma round_nonneg_error (x : Q) :
  (0 <= x)%Q ->
  (x * (999999999999999999999999999 # 1000000000000000000000000000) <= decimal.round x)%Q
  /\ (decimal.round x <= x * (1000000000000000000000000001 # 1000000000000000000000000000))%Q.
Proof.
  intros Hx. apply Qle_lteq in Hx. destruct Hx as [Hx | Hx].
  - now apply round_error.
  - symmetry in Hx. rewrite (round_of_zero x Hx), Hx. split; discriminate.
Qed.

Lemma ordinary_positive (x : Q) : decimal.ordinary x -> (0 < x)%Q.
Proof. intros [H _]. eapply Qlt_le_trans; [|exact H]. reflexivity. Qed.

Lemma zero_or_ordinary_nonneg (x : Q) :
  (x == 0)%Q \/ decimal.ordinary x -> (0 <= x)%Q.
Proof.
  intros [H | H].
  - rewrite H. discriminate.
  - apply Qlt_le_weak. now apply ordinary_positive.
Qed.

(** What the three [Decimal] results of the sizing rule are worth, for
    non-negative balances with some value: each within the context's
    rounding of the exact one. *)
Lemma sizing_values (quote_balance value : Q) :
  (0 <= quote_balance)%Q -> (0 <= value)%Q -> (0 < quote_balance + value)%Q ->
  let rv := decimal.round value in
  let total_value := decimal.round (quote_balance + rv) in
  let ratio := decimal.round (rv / total_value) in
  (value * (999999999999999999999999999 # 1000000000000000000000000000) <= rv)%Q
  /\ (rv <= value * (1000000000000000000000000001 # 1000000000000000000000000000))%Q
  /\ ((quote_balance + rv)
      * (999999999999999999999999999 # 1000000000000000000000000000) <= total_value)%Q
  /\ (total_value
      <= (quote_balance + rv)
         * (1000000000000000000000000001 # 1000000000000000000000000000))%Q
  /\ (0 < total_value)%Q
  /\ (rv / total_value
      * (999999999999999999999999999 # 1000000000000000000000000000) <= ratio)%Q
  /\ (ratio <= rv / total_value
               * (1000000000000000000000000001 # 1000000000000000000000000000))%Q.
Proof.
  intros Hq Hv Hpos rv total_value ratio.
  destruct (round_nonneg_error value Hv) as [L1 U1]. fold rv in L1, U1.
  assert (Hs : (0 < quote_balance + rv)%Q) by lra.
  destruct (round_error _ Hs) as [L2 U2]. fold total_value in L2, U2.
  assert (Ht : (0 < total_value)%Q) by lra.
  assert (Hr : (0 <= rv / total_value)%Q).
  { apply Qle_shift_div_l; [exact Ht|]. lra. }
  destruct (round_nonneg_error _ Hr) as [L3 U3]. fold ratio in L3, U3.
  tauto.
Qed.

(** X6: the amount is halved exactly when the total value is positive and
    the ratio of the base value to it is above the binary64 value of 0.8
    or below the binary64 value of 0.2, where the base value, the total
    value and the ratio are the script's [Decimal] results, each rounded to
    28 significant digits; in every other case, a total value that is not
    positive included, it is the full [Decimal(0.01)].  Balances are zero
    or ordinary. *)
Theorem order_amount_rule (base_balance quote_balance ref_price : Q) :
  (quote_balance == 0)%Q \/ decimal.ordinary quote_balance ->
  (base_balance * ref_price == 0)%Q \/ decimal.ordinary (base_balance * ref_price) ->
  let value := decimal.round (base_balance * ref_price) in
  let total_value := decimal.round (quote_balance + value) in
  let ratio := decimal.round (value / total_value) in
  let amount := order_amount (inventory_ratio base_balance quote_balance ref_price) in
  decimal.from_float 0.8 = decimal.Finite (7205759403792794 # 9007199254740992)
  /\ decimal.from_float 0.2 = decimal.Finite (7205759403792794 # 36028797018963968)
  /\ (amount = decimal.mul (decimal.from_float base_order_amount) (decimal.from_float 0.5)
      <-> (0 < total_value)%Q
          /\ ((7205759403792794 # 9007199254740992 < ratio)%Q
              \/ (ratio < 7205759403792794 # 36028797018963968)%Q))
  /\ (amount <> decimal.mul (decimal.from_float base_order_amount) (decimal.from_float 0.5)
      -> amount = Py.Ok (decimal.from_float base_order_amount)).
Proof.
  intros _ _ value total_value ratio amount.
  split; [reflexivity|]. split; [reflexivity|].
  apply order_amount_halved_iff.
Qed.

Lemma ordinary_small_values :
  decimal.ordinary 300 /\ decimal.ordinary (17 * 20)
  /\ decimal.ordinary 500 /\ decimal.ordinary (1 * 2000).
Proof. repeat split; vm_compute; discriminate. Qed.

Lemma order_amount_rule_witness :
  decimal.from_float 0.8 = decimal.Finite (7205759403792794 # 9007199254740992)
  /\ decimal.from_float 0.2 = decimal.Finite (7205759403792794 # 36028797018963968)
  /\ (order_amount (inventory_ratio 17 300 20)
      = decimal.mul (decimal.from_float base_order_amount) (decimal.from_float 0.5)
      <-> (0 < decimal.round (300 + decimal.round (17 * 20)))%Q
          /\ ((7205759403792794 # 9007199254740992
               < decimal.round (decimal.round (17 * 20)
                                / decimal.round (300 + decimal.round (17 * 20))))%Q
              \/ (decimal.round (decimal.round (17 * 20)
                                 / decimal.round (300 + decimal.round (17 * 20)))
                  < 7205759403792794 # 36028797018963968)%Q))
  /\ (order_amount (inventory_ratio 17 300 20)
      <> decimal.mul (decimal.from_float base_order_amount) (decimal.from_float 0.5)
      -> order_amount (inventory_ratio 17 300 20)
         = Py.Ok (decimal.from_float base_order_amount)).
Proof.
  apply (order_amount_rule 17 300 20).
  - right. split; vm_compute; discriminate.
  - right. split; vm_compute; discriminate.
Defined.

(** X7: with no value at all, no quote and no base value, the full amount
    is quoted; with quote asset only, or base asset only, the amount is
    halved.  The balance held is ordinary. *)
Theorem empty_and_one_sided_inventory (base_balance quote_balance ref_price : Q) :
  let amount := order_amount (inventory_ratio base_balance quote_balance ref_price) in
  let half := decimal.mul (decimal.from_float base_order_amount)
                (decimal.from_float 0.5) in
  ((quote_balance == 0)%Q -> (base_balance * ref_price == 0)%Q ->
   amount = Py.Ok (decimal.from_float base_order_amount))
  /\ ((base_balance * ref_price == 0)%Q -> decimal.ordinary quote_balance ->
      amount = half)
  /\ ((quote_balance == 0)%Q -> decimal.ordinary (base_balance * ref_price) ->
      amount = half).
Proof.
  intros amount half.
  destruct (order_amount_halved_iff base_balance quote_balance ref_price)
    as (Hiff & Helse).
  fold amount in Hiff, Helse. fold half in Hiff, Helse. cbv zeta in Hiff.
  split; [|split].
  - intros Hq Hb. apply Helse. intros H. apply Hiff in H. destruct H as [H _].
    pose proof (round_of_zero _ Hb) as Hv.
    assert (Hs : (quote_balance + decimal.round (base_balance * ref_price) == 0)%Q)
      by lra.
    rewrite (round_of_zero _ Hs) in H. discriminate H.
  - intros Hb Hq. apply ordinary_positive in Hq.
    assert (Hv : (0 <= base_balance * ref_price)%Q) by (rewrite Hb; discriminate).
    assert (Hpos : (0 < quote_balance + base_balance * ref_price)%Q) by lra.
    destruct (sizing_values quote_balance _ (Qlt_le_weak _ _ Hq) Hv Hpos)
      as (_ & _ & _ & _ & Ht & _ & _).
    apply Hiff. split; [exact Ht|]. right.
    pose proof (round_of_zero _ Hb) as Hrv.
    assert (Hr0 : (decimal.round (base_balance * ref_price)
                   / decimal.round (quote_balance
                                    + decimal.round (base_balance * ref_price)) == 0)%Q).
    { unfold Qdiv. eapply Qeq_trans; [|apply Qmult_0_l].
      apply Qmult_comp; [exact Hrv | reflexivity]. }
    rewrite (round_of_zero _ Hr0). reflexivity.
  - intros Hq Hb. apply ordinary_positive in Hb.
    assert (Hq0 : (0 <= quote_balance)%Q) by (rewrite Hq; discriminate).
    assert (Hpos : (0 < quote_balance + base_balance * ref_price)%Q) by lra.
    destruct (sizing_values quote_balance _ Hq0 (Qlt_le_weak _ _ Hb) Hpos)
      as (L1 & U1 & L2 & U2 & Ht & L3 & U3).
    apply Hiff. split; [exact Ht|]. left.
    set (rv := decimal.round (base_balance * ref_price)) in *.
    set (total_value := decimal.round (quote_balance + rv)) in *.
    assert (Hk : (999999999 # 1000000000 <= rv / total_value)%Q).
    { apply Qle_shift_div_l; [exact Ht|]. lra. }
    lra.
Qed.

Lemma empty_and_one_sided_inventory_witness :
  order_amount (inventory_ratio 0 0 2000)
  = Py.Ok (decimal.from_float base_order_amount)
  /\ order_amount (inventory_ratio 0 500 2000)
     = decimal.mul (decimal.from_float base_order_amount) (decimal.from_float 0.5)
  /\ order_amount (inventory_ratio 1 0 2000)
     = decimal.mul (decimal.from_float base_order_amount) (decimal.from_float 0.5).
Proof.
  destruct ordinary_small_values as (_ & _ & Hquote & Hbase).
  split; [|split].
  - apply (proj1 (empty_and_one_sided_inventory 0 0 2000)); reflexivity.
  - apply (proj1 (proj2 (empty_and_one_sided_inventory 0 500 2000)));
      [reflexivity | exact Hquote].
  - apply (proj2 (proj2 (empty_and_one_sided_inventory 1 0 2000)));
      [reflexivity | exact Hbase].
Defined.

(** X11: the sizing rule in terms of the exact share of the base asset in
    the inventory, [base * price / (quote + base * price)], for balances
    that are zero or ordinary and not both zero: at a share of 81% or
    more, or 19% or less, the amount is halved; between 21% and 79% it is
    the full amount.  The thresholds 0.8 and 0.2 themselves, written as
    floats, are missed by less than that. *)
Theorem order_amount_by_exact_share (base_balance quote_balance ref_price : Q) :
  (quote_balance == 0)%Q \/ decimal.ordinary quote_balance ->
  (base_balance * ref_price == 0)%Q \/ decimal.ordinary (base_balance * ref_price) ->
  (0 < quote_balance + base_balance * ref_price)%Q ->
  let share := (base_balance * ref_price
                / (quote_balance + base_balance * ref_price))%Q in
  let amount := order_amount (inventory_ratio base_balance quote_balance ref_price) in
  let half := decimal.mul (decimal.from_float base_order_amount)
                (decimal.from_float 0.5) in
  ((81 # 100 <= share)%Q -> amount = half)
  /\ ((share <= 19 # 100)%Q -> amount = half)
  /\ ((21 # 100 <= share)%Q -> (share <= 79 # 100)%Q ->
      amount = Py.Ok (decimal.from_float base_order_amount)).
Proof.
  intros Hq Hv Hpos share amount half.
  apply zero_or_ordinary_nonneg in Hq. apply zero_or_ordinary_nonneg in Hv.
  destruct (order_amount_halved_iff base_balance quote_balance ref_price)
    as (Hiff & Helse).
  fold amount in Hiff, Helse. fold half in Hiff, Helse. cbv zeta in Hiff.
  destruct (sizing_values quote_balance _ Hq Hv Hpos)
    as (L1 & U1 & L2 & U2 & Ht & L3 & U3).
  set (value := (base_balance * ref_price)%Q) in *.
  set (rv := decimal.round value) in *.
  set (total_value := decimal.round (quote_balance + rv)) in *.
  set (ratio := decimal.round (rv / total_value)) in *.
  assert (Hshare : (share * (quote_balance + value) == value)%Q).
  { unfold share. field. lra. }
  assert (Hnn : (0 <= quote_balance + value)%Q) by lra.
  split; [|split].
  - intros H. apply Hiff. split; [exact Ht|]. left.
    pose proof (Qmult_le_compat_r _ _ _ H Hnn) as H'. rewrite Hshare in H'.
    assert (Hk : (809 # 1000 <= rv / total_value)%Q).
    { apply Qle_shift_div_l; [exact Ht|]. lra. }
    lra.
  - intros H. apply Hiff. split; [exact Ht|]. right.
    pose proof (Qmult_le_compat_r _ _ _ H Hnn) as H'. rewrite Hshare in H'.
    assert (Hk : (rv / total_value <= 191 # 1000)%Q).
    { apply Qle_shift_div_r; [exact Ht|]. lra. }
    lra.
  - intros Hlo Hhi. apply Helse. intros H. apply Hiff in H.
    destruct H as [_ H].
    pose proof (Qmult_le_compat_r _ _ _ Hlo Hnn) as Hlo'. rewrite Hshare in Hlo'.
    pose proof (Qmult_le_compat_r _ _ _ Hhi Hnn) as Hhi'. rewrite Hshare in Hhi'.
    assert (Hk1 : (209 # 1000 <= rv / total_value)%Q).
    { apply Qle_shift_div_l; [exact Ht|]. lra. }
    assert (Hk2 : (rv / total_value <= 791 # 1000)%Q).
    { apply Qle_shift_div_r; [exact Ht|]. lra. }
    destruct H as [H | H]; lra.
Qed.

Lemma order_amount_by_exact_share_witness :
  order_amount (inventory_ratio 17 60 20)
  = decimal.mul (decimal.from_float base_order_amount) (decimal.from_float 0.5)
  /\ order_amount (inventory_ratio 1 500 20)
     = decimal.mul (decimal.from_float base_order_amount) (decimal.from_float 0.5)
  /\ order_amount (inventory_ratio 17 300 20)
     = Py.Ok (decimal.from_float base_order_amount).
Proof.
  assert (O : forall x : Q,
             (Qle_bool (1 # 10 ^ 1000) x && Qle_bool x (inject_Z (10 ^ 1000)))%bool = true ->
             decimal.ordinary x).
  { intros x H. apply andb_true_iff in H. destruct H as [H1 H2].
    split; now apply Qle_bool_iff. }
  split; [|split].
  - apply (fun Hq Hv Hpos =>
             proj1 (order_amount_by_exact_share 17 60 20 Hq Hv Hpos));
      [right; apply O; reflexivity | right; apply O; reflexivity
       | reflexivity | vm_compute; discriminate].
  - apply (fun Hq Hv Hpos =>
             proj1 (proj2 (order_amount_by_exact_share 1 500 20 Hq Hv Hpos)));
      [right; apply O; reflexivity | right; apply O; reflexivity
       | reflexivity | vm_compute; discriminate].
  - apply (fun Hq Hv Hpos =>
             proj2 (proj2 (order_amount_by_exact_share 17 300 20 Hq Hv Hpos)));
      [right; apply O; reflexivity | right; apply O; reflexivity
       | reflexivity | vm_compute; discriminate | vm_compute; discriminate].
Defined.

End SizingRule.

(** ** Ticks in sequence *)

Section TickSequence.
Import hummingbot SmartMarketMaker.

(** X8: after a tick that ran to completion at time [now], a later tick
    does nothing while its time is below [now + 15], and cancels the active
    orders again once its time has reached [now + 15] and the strategy is
    ready. *)
Theorem refresh_cadence (self next : Env) (st : t)
    (proposal : list OrderCandidate.t) :
  (create_timestamp st <=? current_timestamp self)%float = true ->
  ready_to_trade self = true ->
  create_proposal self = Py.Ok proposal ->
  let st' := after (on_tick self st) in
  create_timestamp st' = (current_timestamp self + 15)%float
  /\ ((current_timestamp next <? current_timestamp self + 15)%float = true ->
      on_tick next st' = {| calls := []; after := st'; raised := None |})
  /\ ((current_timestamp self + 15 <=? current_timestamp next)%float = true ->
      ready_to_trade next = true ->
      exists submissions,
        calls (on_tick next st') = cancel_all_orders next ++ submissions).
Proof.
  intros Hdue Hready Hprop st'.
  assert (E : create_timestamp st' = (current_timestamp self + 15)%float).
  { unfold st'. rewrite (on_tick_due self st Hdue Hready), Hprop. reflexivity. }
  split; [exact E|]. split.
  - intros Hearly. unfold on_tick. rewrite E, (ltb_true_leb _ _ Hearly). reflexivity.
  - intros Hlate Hr. rewrite <- E in Hlate.
    rewrite (on_tick_due next st' Hlate Hr).
    destruct (create_proposal next) as [p | e]; cbn [calls]; eauto.
    exists []. now rewrite app_nil_r.
Qed.

Lemma refresh_cadence_witness :
  let st' := after (on_tick Examples.quoting init) in
  let next := Examples.env (Examples.funded 2000 1 2000) 110 true
                [Examples.eth_order] [Examples.row 50 0.002] in
  create_timestamp st' = (100 + 15)%float
  /\ ((110 <? 100 + 15)%float = true ->
      on_tick next st' = {| calls := []; after := st'; raised := None |})
  /\ ((100 + 15 <=? 110)%float = true ->
      true = true ->
      exists submissions,
        calls (on_tick next st') = cancel_all_orders next ++ submissions).
Proof.
  intros st' next.
  destruct (create_proposal Examples.quoting) as [proposal|e] eqn:E;
    [|vm_compute in E; discriminate E].
  exact (refresh_cadence Examples.quoting next init proposal eq_refl eq_refl E).
Defined.

(** X9: on a due, ready tick whose trend filter does not fire and whose
    budget checker returns the proposal unchanged, the calls are exactly:
    one cancel per active order, then one [buy] and one [sell] on the
    strategy's pair, LIMIT, with the same amount, at the bid and the ask;
    [create_timestamp] becomes [now + 15]. *)
Theorem quoting_tick (self : Env) (st : t) (latest : Row) :
  (create_timestamp st <=? current_timestamp self)%float = true ->
  ready_to_trade self = true ->
  Py.last_item (get_candles_with_indicators self) = Py.Ok latest ->
  trend_too_strong (RSI_14 latest) = false ->
  (forall proposal, create_proposal self = Py.Ok proposal ->
                    adjust_proposal_to_budget self proposal = proposal) ->
  let conn := connectors self exchange in
  let p := ConnectorBase.get_price_by_type conn trading_pair price_source in
  let h := dynamic_spread (volatility latest) in
  exists (bid ask amt : decimal.Decimal),
    decimal.mul (decimal.Finite p) (decimal.from_float (1 - h)%float) = Py.Ok bid
    /\ decimal.mul (decimal.Finite p) (decimal.from_float (1 + h)%float) = Py.Ok ask
    /\ order_amount (inventory_ratio (ConnectorBase.get_balance conn "ETH")
                       (ConnectorBase.get_balance conn "USDT") p) = Py.Ok amt
    /\ on_tick self st
       = {| calls := cancel_all_orders self
                     ++ [buy exchange trading_pair amt LIMIT bid;
                         sell exchange trading_pair amt LIMIT ask];
            after := {| create_timestamp := (current_timestamp self + 15)%float |};
            raised := None |}.
Proof.
  intros Hdue Hready Hl Htrend Hkeep conn p h.
  destruct (create_proposal_ok self latest Hl) as (bid & ask & amt & Hb & Hs & Ha & E).
  rewrite Htrend in E.
  exists bid, ask, amt. split; [exact Hb|]. split; [exact Hs|]. split; [exact Ha|].
  rewrite (on_tick_due self st Hdue Hready), E, (Hkeep _ E). reflexivity.
Qed.

Lemma quoting_tick_witness :
  exists (bid ask amt : decimal.Decimal),
    decimal.mul (decimal.Finite 2000) (decimal.from_float (1 - dynamic_spread 0.002)%float)
    = Py.Ok bid
    /\ decimal.mul (decimal.Finite 2000) (decimal.from_float (1 + dynamic_spread 0.002)%float)
       = Py.Ok ask
    /\ order_amount (inventory_ratio 1 2000 2000) = Py.Ok amt
    /\ on_tick Examples.quoting init
       = {| calls := cancel_all_orders Examples.quoting
                     ++ [buy exchange trading_pair amt LIMIT bid;
                         sell exchange trading_pair amt LIMIT ask];
            after := {| create_timestamp := (100 + 15)%float |};
            raised := None |}.
Proof.
  apply (quoting_tick Examples.quoting init (Examples.row 50 0.002));
    reflexivity.
Defined.



End TickSequence.
